(** * file-manager: the Express server of [server/server.js]

    A shallow embedding of the request handlers of the file-manager
    backend (registration, login, the token middleware, upload, file
    lookup and file deletion) together with the properties its
    specification states about them.  The second source file of the
    repository is an earlier copy of the same server: its [/register],
    [/login], [/files/:id] handlers and its storage settings are the
    same, and its [/upload] handler is empty.

    The handlers talk to four external collaborators: mongoose (the
    [User] and [File] collections), GridFS (through multer's storage
    engine and gridfs-stream), bcrypt and jsonwebtoken.  The collections
    are modelled as lists in insertion order, GridFS as a list of stored
    files tagged with their bucket, and the two cryptographic libraries
    as parameters of the development that are only known through their
    documented contracts. *)

From Stdlib Require Import Ascii.
From stdpp Require Import gmap strings list pretty.

Open Scope string_scope.
Open Scope list_scope.

(** ** Data model *)

(** A MongoDB ObjectId.  Only equality and freshness matter here. *)
Definition ObjectId := nat.

Module User.
(** Modelled from the spec: [server/models/User.js] is not part of the
    sources.  Section 3 of the specification gives a user an
    identifier, a name, an email, a password hash, a creation
    timestamp and the ordered list of the filenames it owns. *)
Record t := mk {
  _id : ObjectId;
  name : string;
  email : string;
  password : string;
  createdAt : string;
  files : list string
}.
End User.

Module File.
(** [fileSchema] of [server/models/File.js]. *)
Record t := mk {
  _id : ObjectId;
  filename : string;
  originalname : string;
  contentType : string;
  size : nat;
  owner : ObjectId
}.
End File.

Module Claims.
(** The payload object both [jwt.sign] calls build. *)
Record t := mk {
  userId : ObjectId;
  name : string;
  email : string;
  password : string;
  createdAt : string
}.
End Claims.

(** What [jwt.verify] returns: the payload, to which [jwt.sign] added the
    issued-at timestamp [iat]. *)
Record Decoded := mkDecoded {
  claims : Claims.t;
  iat : nat
}.

(** A file stored in GridFS.  [g_root] is the bucket (the prefix of the
    [.files] and [.chunks] collections) it lives in. *)
Record GridFile := mkGridFile {
  g_root : string;
  g_id : ObjectId;
  g_filename : string;
  g_contentType : string;
  g_length : nat;
  g_data : string
}.

(** The file part of a multipart request, as multer hands it to the
    storage engine. *)
Record Part := mkPart {
  part_originalname : string;
  part_mimetype : string;
  part_data : string
}.

(** [req.file], as the GridFS storage engine fills it in. *)
Record FileInfo := mkFileInfo {
  fi_id : ObjectId;
  fi_filename : string;
  fi_originalname : string;
  fi_contentType : string;
  fi_size : nat;
  fi_bucketName : string
}.

(** [req.body] after [express.json()]; the handlers destructure these
    four fields ([/login] reads [email] and [password] only). *)
Record ReqBody := mkReqBody {
  body_name : string;
  body_email : string;
  body_password : string;
  body_createdAt : string
}.

(** An HTTP request as it arrives: the headers, the parsed JSON body, the
    [:id] path parameter and the file part of a multipart body, if any. *)
Record Request := mkRequest {
  headers : gmap string string;
  body : ReqBody;
  params_id : ObjectId;
  part : option Part
}.

(** The Express request object [req]: the request, and the two properties
    the middlewares add to it. *)
Record Req := mkReq {
  request : Request;
  user : option Decoded;
  file : option FileInfo
}.

(** [req] as Express builds it: [req.user] and [req.file] are undefined. *)
Definition incoming (r : Request) : Req := mkReq r None None.

(** The JSON bodies the handlers send, one constructor per shape. *)
Inductive Body :=
| ErrorBody (error : string)
| MsgBody (msg : string)
| MessageBody (message : string)
| AuthBody (msg : string) (user : User.t) (token : string)
| UploadBody (msg : string) (newFile : File.t)
| FileBody (file : GridFile)
| TextBody (text : string).

(** What the client observes.  [Unhandled] is a promise rejected inside
    an [async] handler without a [try]: Express 4 writes no response.
    [DefaultError] is the answer of Express's own error handler after a
    middleware called [next(err)]. *)
Inductive Reply :=
| Respond (status : nat) (payload : Body)
| Unhandled (e : string)
| DefaultError (e : string).

(** The database: the two mongoose collections, GridFS, and the source of
    fresh ObjectIds. *)
Record State := mkState {
  users : list User.t;
  files : list File.t;
  gridfs : list GridFile;
  next_oid : nat
}.

Definition initial_state : State := mkState [] [] [] 0.

(** What a single request takes from its environment: the clock read by
    [jwt.sign], the salt drawn by [bcrypt.hash], the random name the
    storage engine would generate by default, and which calls to the
    database fail ([db_fault k] is the [k]-th mongoose call of the
    handler, [gridfs_fault] any GridFS operation). *)
Record Env := mkEnv {
  clock : nat;
  salt : string;
  random_name : string;
  db_fault : nat -> bool;
  gridfs_fault : bool
}.

Definition no_db_fault (env : Env) : Prop := forall k, db_fault env k = false.

(** ** Exceptions and state *)

Inductive Exc (A : Type) :=
| Ok (a : A)
| Throw (e : string).
Arguments Ok {A} a.
Arguments Throw {A} e.

(** An asynchronous computation over the database. *)
Definition M (A : Type) : Type := State -> State * Exc A.

Definition ret {A} (a : A) : M A := fun st => (st, Ok a).

Definition bind {A B} (m : M A) (k : A -> M B) : M B :=
  fun st =>
    match m st with
    | (st', Ok a) => k a st'
    | (st', Throw e) => (st', Throw e)
    end.

Definition throw {A} (e : string) : M A := fun st => (st, Throw e).

Notation "'let!' x ':=' m 'in' k" := (bind m (fun x => k))
  (at level 10, x name, m at level 100, k at level 200).
Notation "'do!' m 'in' k" := (bind m (fun _ => k))
  (at level 10, m at level 100, k at level 200).

(** An [async] route handler without [try]: a rejection escapes. *)
Definition run_async (m : M Reply) (st : State) : State * Reply :=
  match m st with
  | (st', Ok r) => (st', r)
  | (st', Throw e) => (st', Unhandled e)
  end.

(** [try { ... } catch (error) { h }] around a handler body. *)
Definition try_catch (m : M Reply) (h : string -> Reply) (st : State)
  : State * Reply :=
  match m st with
  | (st', Ok r) => (st', r)
  | (st', Throw e) => (st', h e)
  end.

(** ** The data-access layer *)

(** A mongoose call: rejects when the database fails, and then leaves the
    collections as they were. *)
Definition db_call {A} (env : Env) (k : nat) (op : M A) : M A :=
  fun st => if db_fault env k then (st, Throw "MongoError") else op st.

Definition new_ObjectId : M ObjectId :=
  fun st =>
    (mkState (users st) (files st) (gridfs st) (S (next_oid st)),
     Ok (next_oid st)).

Definition has_email (e : string) (u : User.t) : bool :=
  bool_decide (User.email u = e).

(** [User.findOne({ email })]: the first document with that email. *)
Definition User_findOne (env : Env) (k : nat) (e : string)
  : M (option User.t) :=
  db_call env k (fun st => (st, Ok (List.find (has_email e) (users st)))).

(** [new User({ name, email, password, createdAt })]: the document gets
    its [_id] on construction and an empty [files] array. *)
Definition new_User (n e p c : string) : M User.t :=
  let! i := new_ObjectId in ret (User.mk i n e p c []).

(** [newUser.save()] *)
Definition User_save (env : Env) (k : nat) (u : User.t) : M unit :=
  db_call env k (fun st =>
    (mkState (users st ++ [u]) (files st) (gridfs st) (next_oid st), Ok tt)).

Definition new_File (fn on ct : string) (sz : nat) (o : ObjectId) : M File.t :=
  let! i := new_ObjectId in ret (File.mk i fn on ct sz o).

(** [newFile.save()] *)
Definition File_save (env : Env) (k : nat) (f : File.t) : M unit :=
  db_call env k (fun st =>
    (mkState (users st) (files st ++ [f]) (gridfs st) (next_oid st), Ok tt)).

Definition push_file (fn : string) (u : User.t) : User.t :=
  User.mk (User._id u) (User.name u) (User.email u) (User.password u)
          (User.createdAt u) (User.files u ++ [fn]).

(** Update the first document whose [_id] is [i]; none is changed when no
    document has that [_id]. *)
Fixpoint update_by_id (i : ObjectId) (f : User.t -> User.t)
  (us : list User.t) : list User.t :=
  match us with
  | [] => []
  | u :: rest =>
      if bool_decide (User._id u = i) then f u :: rest
      else u :: update_by_id i f rest
  end.

(** [User.findByIdAndUpdate(id, { $push: { files: filename } })]; the
    handler does not look at the result. *)
Definition User_findByIdAndUpdate (env : Env) (k : nat) (i : ObjectId)
  (fn : string) : M unit :=
  db_call env k (fun st =>
    (mkState (update_by_id i (push_file fn) (users st)) (files st)
             (gridfs st) (next_oid st), Ok tt)).

(** [User.findById], for stating properties. *)
Definition find_by_id (i : ObjectId) (us : list User.t) : option User.t :=
  List.find (fun u => bool_decide (User._id u = i)) us.

(** ** A reference instance of the two libraries

    A transparent stand-in for [bcrypt] and [jsonwebtoken] that meets
    their contracts, used to run the handlers on concrete requests.  A
    token is the key and the payload fields one after the other, each
    string preceded by its length in unary. *)

Module Toy.
Fixpoint enc_nat (n : nat) (rest : string) : string :=
  match n with
  | 0 => String "0"%char rest
  | S k => String "1"%char (enc_nat k rest)
  end.

Fixpoint dec_nat (s : string) : option (nat * string) :=
  match s with
  | String c rest =>
      if Ascii.eqb c "0"%char then Some (0, rest)
      else if Ascii.eqb c "1"%char then
        match dec_nat rest with
        | Some (n, r) => Some (S n, r)
        | None => None
        end
      else None
  | EmptyString => None
  end.

Fixpoint split_at (n : nat) (s : string) : option (string * string) :=
  match n with
  | 0 => Some ("", s)
  | S k =>
      match s with
      | String c r =>
          match split_at k r with
          | Some (a, b) => Some (String c a, b)
          | None => None
          end
      | EmptyString => None
      end
  end.

Definition enc_str (s rest : string) : string :=
  enc_nat (String.length s) (s ++ rest)%string.

Definition dec_str (s : string) : option (string * string) :=
  match dec_nat s with
  | Some (n, r) => split_at n r
  | None => None
  end.

Definition jwt_sign (c : Claims.t) (key : string) (t : nat) : string :=
  enc_str key
    (enc_nat (Claims.userId c)
       (enc_str (Claims.name c)
          (enc_str (Claims.email c)
             (enc_str (Claims.password c)
                (enc_str (Claims.createdAt c) (enc_nat t "")))))).

Definition jwt_verify (tok key : string) : option Decoded :=
  '(k, r0) ← dec_str tok;
  if bool_decide (k = key) then
    '(i, r1) ← dec_nat r0;
    '(n, r2) ← dec_str r1;
    '(e, r3) ← dec_str r2;
    '(p, r4) ← dec_str r3;
    '(c, r5) ← dec_str r4;
    '(t, _) ← dec_nat r5;
    Some (mkDecoded (Claims.mk i n e p c) t)
  else None.

Definition bcrypt_hash (p : string) (rounds : nat) (salt : string) : string :=
  enc_nat rounds (enc_str salt p).

Definition bcrypt_compare (p h : string) : bool :=
  match dec_nat h with
  | Some (_, r) =>
      match dec_str r with
      | Some (_, q) => bool_decide (q = p)
      | None => false
      end
  | None => false
  end.

Definition JWT_SECRET : string := "s3cret".

Definition env0 : Env := mkEnv 1000 "salt" "5f2b" (fun _ => false) false.
Definition env1 : Env := mkEnv 2000 "pepper" "77aa" (fun _ => false) false.

Definition no_body : ReqBody := mkReqBody "" "" "" "".

Definition register_alice : Request :=
  mkRequest ∅ (mkReqBody "Alice" "alice@x.com" "pw1" "2023-01-01") 0 None.

Definition login_alice : Request :=
  mkRequest ∅ (mkReqBody "" "alice@x.com" "pw1" "") 0 None.

Definition login_alice_wrong : Request :=
  mkRequest ∅ (mkReqBody "" "alice@x.com" "wrong" "") 0 None.

Definition env_db_down : Env :=
  mkEnv 3000 "salt" "0000" (fun _ => true) false.
Definition env_gridfs_down : Env :=
  mkEnv 3000 "salt" "0000" (fun _ => false) true.

(** Alice as [register_alice] stores her under [env0], and the database
    holding only her. *)
Definition alice : User.t :=
  User.mk 0 "Alice" "alice@x.com" (bcrypt_hash "pw1" 10 "salt")
          "2023-01-01" [].
Definition alice_claims : Claims.t :=
  Claims.mk 0 "Alice" "alice@x.com" (bcrypt_hash "pw1" 10 "salt")
            "2023-01-01".
Definition alice_token : string := jwt_sign alice_claims JWT_SECRET 1000.
Definition registered : State := mkState [alice] [] [] 1.

Definition notes (data : string) : Part :=
  mkPart "notes.txt" "text/plain" data.

Definition upload_notes (data : string) : Request :=
  mkRequest {[ "token" := alice_token ]} no_body 0 (Some (notes data)).
Definition upload_nothing : Request :=
  mkRequest {[ "token" := alice_token ]} no_body 0 None.
Definition upload_empty_header : Request :=
  mkRequest {[ "token" := "" ]} no_body 0 (Some (notes "x")).
Definition upload_garbage : Request :=
  mkRequest {[ "token" := "garbage" ]} no_body 0 (Some (notes "x")).

Definition delete_7 : Request := mkRequest ∅ no_body 7 None.

(** Environments in which only the first, or only the second, mongoose
    call of the handler fails. *)
Definition env_first_down : Env :=
  mkEnv 4000 "salt" "0000" (fun k => Nat.eqb k 0) false.
Definition env_second_down : Env :=
  mkEnv 4000 "salt" "0000" (fun k => Nat.eqb k 1) false.

(** A token under the server's secret for an [_id] no user has. *)
Definition ghost_claims : Claims.t := Claims.mk 42 "Ghost" "ghost@x.com" "" "".
Definition ghost_token : string := jwt_sign ghost_claims JWT_SECRET 500.
Definition upload_ghost : Request :=
  mkRequest {[ "token" := ghost_token ]} no_body 0 (Some (notes "boo")).

Definition get_7 : Request := mkRequest ∅ no_body 7 None.

(** A database whose GridFS holds a file with [_id] 7 in each of the two
    buckets the file routes name. *)
Definition two_buckets : State :=
  mkState [] []
    [mkGridFile "files" 7 "a.txt" "text/plain" 1 "a";
     mkGridFile "uploads" 7 "b.txt" "text/plain" 1 "b"] 8.
End Toy.

(** ** The server

    [bcrypt] and [jsonwebtoken] are parameters.  [bcrypt_hash p r s] is
    [bcrypt.hash(p, r)] when the salt drawn is [s]; [jwt_sign c k t] is
    [jwt.sign(c, k)] at time [t]; [jwt_verify tok k] is [None] when
    [jwt.verify(tok, k)] throws. *)

Section Server.

Variable bcrypt_hash : string -> nat -> string -> string.
Variable bcrypt_compare : string -> string -> bool.
Variable jwt_sign : Claims.t -> string -> nat -> string.
Variable jwt_verify : string -> string -> option Decoded.

(** [process.env.JWT_SECRET] *)
Variable JWT_SECRET : string.

(** *** The error taxonomy of the specification, as the responses the
    handlers send *)

Definition Unauthorized : Reply := Respond 401 (ErrorBody "Unauthorized").
Definition InvalidToken : Reply := Respond 401 (ErrorBody "Invalid token").
Definition NoFilePresent : Reply := Respond 400 (ErrorBody "No file uploaded").
Definition NotFound : Reply := Respond 404 (ErrorBody "File not found").
Definition RetrievalError : Reply :=
  Respond 500 (ErrorBody "Error retrieving the file").
Definition StorageError : Reply :=
  Respond 500 (ErrorBody "Error deleting the file").
Definition Deleted : Reply :=
  Respond 200 (MessageBody "File deleted successfully").
Definition DuplicateUser : Reply :=
  Respond 400 (ErrorBody "User already exists").
Definition UserNotFound : Reply := Respond 400 (MsgBody "User doesn't exists!!").
Definition InvalidCredentials : Reply :=
  Respond 400 (MsgBody "Invalid email or password").
Definition ServerError : Reply := Respond 500 (MsgBody "Server error").

(** *** [validateToken] *)

(** JavaScript truthiness of [req.headers['token']]: [undefined] and the
    empty string are falsy. *)
Definition truthy (h : option string) : bool :=
  match h with
  | None => false
  | Some "" => false
  | Some _ => true
  end.

Definition set_user (req : Req) (d : Decoded) : Req :=
  mkReq (request req) (Some d) (file req).

(** The middleware either answers itself ([inl]) or calls [next()] with
    the request it has updated ([inr]). *)
Definition validateToken (req : Req) : Reply + Req :=
  let token := headers (request req) !! "token" in
  if negb (truthy token) then inl Unauthorized
  else
    match jwt_verify (default "" token) JWT_SECRET with
    | Some decoded => inr (set_user req decoded)
    | None => inl InvalidToken
    end.

(** *** The GridFS storage engine behind [upload.single('file')] *)

(** The [file] option of [GridFsStorage]: the settings of the file to
    store.  A missing [filename] makes the engine use a random name. *)
Definition storage_file (req : Req) (p : Part) : option string :=
  Some (part_originalname p).

Definition set_file (req : Req) (fi : FileInfo) : Req :=
  mkReq (request req) (user req) (Some fi).

(** The engine writes the part to its bucket (["fs"], as the settings name
    none) under a fresh ObjectId and describes it in [req.file]. *)
Definition gridfs_handleFile (env : Env) (req : Req) (p : Part) : M FileInfo :=
  fun st =>
    if gridfs_fault env then (st, Throw "MongoError")
    else
      let fn := default (random_name env) (storage_file req p) in
      let i := next_oid st in
      let g := mkGridFile "fs" i fn (part_mimetype p)
                          (String.length (part_data p)) (part_data p) in
      (mkState (users st) (files st) (gridfs st ++ [g]) (S i),
       Ok (mkFileInfo i fn (part_originalname p) (part_mimetype p)
                      (String.length (part_data p)) "fs")).

(** [upload.single('file')]: without a file part [req.file] stays
    undefined and nothing is stored. *)
Definition upload_single (env : Env) (req : Req) : M Req :=
  match part (request req) with
  | None => ret req
  | Some p => let! fi := gridfs_handleFile env req p in ret (set_file req fi)
  end.

(** *** [POST /upload] *)

Definition upload_handler (env : Env) (req : Req) : M Reply :=
  match file req with
  | None => ret NoFilePresent
  | Some fi =>
      match user req with
      | None => throw "TypeError"
      | Some decoded =>
          let owner := Claims.userId (claims decoded) in
          let! newFile := new_File (fi_filename fi) (fi_originalname fi)
                                   (fi_contentType fi) (fi_size fi) owner in
          do! File_save env 0 newFile in
          do! User_findByIdAndUpdate env 1 (Claims.userId (claims decoded))
                                     (fi_filename fi) in
          ret (Respond 201 (UploadBody "File saved in database" newFile))
      end
  end.

(** The route: [validateToken], then [upload.single('file')], then the
    handler. *)
Definition post_upload (env : Env) (r : Request) (st : State)
  : State * Reply :=
  match validateToken (incoming r) with
  | inl r => (st, r)
  | inr req1 =>
      match upload_single env req1 st with
      | (st1, Throw e) => (st1, DefaultError e)
      | (st1, Ok req2) => run_async (upload_handler env req2) st1
      end
  end.

(** *** [GET /files/:id] and [DELETE /files/:id] *)

Definition in_bucket (root : string) (i : ObjectId) (g : GridFile) : bool :=
  bool_decide (g_root g = root) && bool_decide (g_id g = i).

(** A value a query compares with a document's [_id].  MongoDB compares
    values of one type only: a string is never equal to an ObjectId. *)
Inductive IdValue :=
| OfObjectId (i : ObjectId)
| OfString (s : string).

Definition id_equal (a b : IdValue) : bool :=
  match a, b with
  | OfObjectId i, OfObjectId j => bool_decide (i = j)
  | OfString s, OfString t => bool_decide (s = t)
  | _, _ => false
  end.

(** [req.params.id]: the text of the path segment that spells the id. *)
Definition param_text (i : ObjectId) : string := pretty i.

(** The filter [{ _id: q }] on the [.files] collection of the bucket
    [root]; the [_id] of a stored file is an ObjectId. *)
Definition in_collection (root : string) (q : IdValue) (g : GridFile) : bool :=
  bool_decide (g_root g = root) && id_equal q (OfObjectId (g_id g)).

(** [gfs.files.findOne({ _id: req.params.id })], after
    [gfs.collection('files')]: what the driver passes to the callback as
    [(err, file)].  [gfs.files] is the driver's own collection, so the
    filter reaches it as written, with the path parameter still a
    string. *)
Definition gfs_files_findOne (env : Env) (i : ObjectId) (st : State)
  : option string * option GridFile :=
  if gridfs_fault env then (Some "MongoError", None)
  else
    (None,
     List.find (in_collection "files" (OfString (param_text i))) (gridfs st)).

Definition get_file_callback (err : option string) (f : option GridFile)
  : Reply :=
  match err with
  | Some _ => RetrievalError
  | None =>
      match f with
      | None => NotFound
      | Some g => Respond 200 (FileBody g)
      end
  end.

Definition get_file (env : Env) (r : Request) (st : State) : State * Reply :=
  let '(err, f) := gfs_files_findOne env (params_id r) st in
  (st, get_file_callback err f).

(** [gfs.remove({ _id, root })]: drops the file of that bucket and hands
    the callback an error or nothing.  An [_id] the bucket does not hold
    is no error for the driver.  Unlike the lookup above, [remove] turns
    the path parameter into an ObjectId before it compares. *)
Definition gfs_remove (env : Env) (i : ObjectId) (root : string) (st : State)
  : State * option string :=
  if gridfs_fault env then (st, Some "MongoError")
  else
    (mkState (users st) (files st)
             (List.filter (fun g => negb (in_bucket root i g)) (gridfs st))
             (next_oid st),
     None).

Definition delete_file_callback (err : option string) : Reply :=
  match err with
  | Some _ => StorageError
  | None => Deleted
  end.

Definition delete_file (env : Env) (r : Request) (st : State)
  : State * Reply :=
  let '(st', err) := gfs_remove env (params_id r) "uploads" st in
  (st', delete_file_callback err).

(** *** [POST /register] *)

Definition claims_of (u : User.t) : Claims.t :=
  Claims.mk (User._id u) (User.name u) (User.email u) (User.password u)
            (User.createdAt u).

Definition register_handler (env : Env) (req : Req) : M Reply :=
  let name := body_name (body (request req)) in
  let email := body_email (body (request req)) in
  let password := body_password (body (request req)) in
  let createdAt := body_createdAt (body (request req)) in
  let! existingUser := User_findOne env 0 email in
  match existingUser with
  | Some _ => ret DuplicateUser
  | None =>
      let hashedPassword := bcrypt_hash password 10 (salt env) in
      let! newUser := new_User name email hashedPassword createdAt in
      do! User_save env 1 newUser in
      let token := jwt_sign (claims_of newUser) JWT_SECRET (clock env) in
      ret (Respond 201 (AuthBody "User registered successfully!!" newUser token))
  end.

Definition register (env : Env) (r : Request) (st : State) : State * Reply :=
  run_async (register_handler env (incoming r)) st.

(** *** [POST /login] *)

Definition login_body (env : Env) (req : Req) : M Reply :=
  let email := body_email (body (request req)) in
  let password := body_password (body (request req)) in
  let! found := User_findOne env 0 email in
  match found with
  | None => ret UserNotFound
  | Some u =>
      let isPasswordValid := bcrypt_compare password (User.password u) in
      if negb isPasswordValid then ret InvalidCredentials
      else
        let token := jwt_sign (claims_of u) JWT_SECRET (clock env) in
        ret (Respond 200 (AuthBody "User logged in successfully!" u token))
  end.

Definition login (env : Env) (r : Request) (st : State) : State * Reply :=
  try_catch (login_body env (incoming r)) (fun _ => ServerError) st.

(** *** The application *)

Inductive Route :=
| GET_root
| POST_register
| POST_login
| POST_upload
| GET_files_id
| DELETE_files_id.

Definition app (rt : Route) (env : Env) (req : Request) (st : State)
  : State * Reply :=
  match rt with
  | GET_root => (st, Respond 200 (TextBody "Server is running perfectly"))
  | POST_register => register env req st
  | POST_login => login env req st
  | POST_upload => post_upload env req st
  | GET_files_id => get_file env req st
  | DELETE_files_id => delete_file env req st
  end.

(** *** Runs of the server *)

(** The tokens a response hands to the client. *)
Definition tokens_of (r : Reply) : list string :=
  match r with
  | Respond _ (AuthBody _ _ tok) => [tok]
  | _ => []
  end.

(** Unforgeability of the signature, the contract of [jsonwebtoken]: a
    client holds no token that verifies under the server's secret except
    those the server has handed out. *)
Definition presents_issued (issued : list string) (req : Request) : Prop :=
  forall tok d,
    headers req !! "token" = Some tok ->
    jwt_verify tok JWT_SECRET = Some d ->
    tok ∈ issued.

(** [reachable st issued]: the server, started on an empty database, can
    be in state [st] having handed out the tokens [issued]. *)
Inductive reachable : State -> list string -> Prop :=
| reachable_init : reachable initial_state []
| reachable_step st issued rt env req :
    reachable st issued ->
    presents_issued issued req ->
    reachable (app rt env req st).1
              (issued ++ tokens_of (app rt env req st).2).

(** The owner of every [File] document is the [_id] of a [User]
    document. *)
Definition known_id (i : ObjectId) (st : State) : Prop :=
  exists u, u ∈ users st /\ User._id u = i.

Definition owner_exists (st : State) : Prop :=
  forall f, f ∈ files st -> known_id (File.owner f) st.

(** Every token handed out so far verifies to the [_id] of a stored
    user. *)
Definition tokens_known (issued : list string) (st : State) : Prop :=
  forall tok d,
    tok ∈ issued ->
    jwt_verify tok JWT_SECRET = Some d ->
    known_id (Claims.userId (claims d)) st.

(** The blob the storage engine writes for the part [p]. *)
Definition stored_blob (st : State) (p : Part) : GridFile :=
  mkGridFile "fs" (next_oid st) (part_originalname p) (part_mimetype p)
             (String.length (part_data p)) (part_data p).

(** The [File] document the handler builds for the part [p]. *)
Definition file_record (st : State) (p : Part) (d : Decoded) : File.t :=
  File.mk (S (next_oid st)) (part_originalname p) (part_originalname p)
          (part_mimetype p) (String.length (part_data p))
          (Claims.userId (claims d)).

(** How many user documents carry the email [e]. *)
Definition count_email (e : string) (st : State) : nat :=
  length (List.filter (has_email e) (users st)).

(** One request served: the route, what the environment does meanwhile,
    and the request. *)
Record Call := mkCall {
  call_route : Route;
  call_env : Env;
  call_request : Request
}.

(** The database after the server has served [calls], one after the
    other, starting from [st]. *)
Fixpoint run (calls : list Call) (st : State) : State :=
  match calls with
  | [] => st
  | c :: rest =>
      run rest (app (call_route c) (call_env c) (call_request c) st).1
  end.

(** [u'] is the account [u]: every field but [files] is the same. *)
Definition same_account (u u' : User.t) : Prop :=
  User._id u' = User._id u /\ User.name u' = User.name u /\
  User.email u' = User.email u /\ User.password u' = User.password u /\
  User.createdAt u' = User.createdAt u.

(** Every ObjectId in use was drawn from the generator. *)
Definition ids_below (st : State) : Prop :=
  forall u, u ∈ users st -> User._id u < next_oid st.

(** Every file of GridFS lives in the bucket [root]. *)
Definition blobs_in (root : string) (st : State) : Prop :=
  forall g, g ∈ gridfs st -> g_root g = root.

(** *** The contracts of the two libraries *)

(** [bcrypt.compare] accepts the password a hash was computed from. *)
Hypothesis bcrypt_compare_hash :
  forall p rounds s, bcrypt_compare p (bcrypt_hash p rounds s) = true.

(** [jwt.verify] under the signing key returns the signed payload and the
    time of signing. *)
Hypothesis jwt_verify_sign :
  forall c key t, jwt_verify (jwt_sign c key t) key = Some (mkDecoded c t).

(** [jwt.verify] throws on an empty token. *)
Hypothesis jwt_verify_empty : forall key, jwt_verify "" key = None.

(** ** Properties *)

Ltac unfold_handlers :=
  unfold register, login, post_upload, get_file, delete_file, run_async,
    try_catch, register_handler, login_body, upload_handler, upload_single,
    gridfs_handleFile, new_User, new_File, new_ObjectId, User_findOne,
    User_save, File_save, User_findByIdAndUpdate, db_call, bind, ret, throw,
    incoming in *;
  cbn [request body user file fst snd] in *.

Lemma find_has_email_None e (us : list User.t) :
  (forall u, u ∈ us -> User.email u <> e) ->
  List.find (has_email e) us = None.
Proof.
  induction us as [|v us IH]; intros H; [reflexivity|].
  cbn. unfold has_email at 1.
  rewrite bool_decide_eq_false_2 by (apply H; left).
  apply IH. intros u Hu. apply H. by right.
Qed.

Lemma find_app_None {A} (P : A -> bool) (l l' : list A) :
  List.find P l = None -> List.find P (l ++ l') = List.find P l'.
Proof.
  induction l as [|a l IH]; [done|].
  cbn. destruct (P a); [done|]. exact IH.
Qed.

Lemma find_has_email_Some e (us : list User.t) u :
  u ∈ us -> User.email u = e ->
  exists v, List.find (has_email e) us = Some v /\ v ∈ us /\ User.email v = e.
Proof.
  induction us as [|w us IH]; intros Hin He.
  - by apply elem_of_nil in Hin.
  - cbn. unfold has_email at 1. case_bool_decide as Hw.
    + exists w. split; [done|]. split; [left|done].
    + apply elem_of_cons in Hin as [->|Hin]; [done|].
      destruct (IH Hin He) as (v & Hf & Hv & Hve).
      exists v. split; [done|]. split; [by right|done].
Qed.

Lemma find_has_email_elem e (us : list User.t) v :
  List.find (has_email e) us = Some v -> v ∈ us /\ User.email v = e.
Proof.
  intros H. apply List.find_some in H as [Hin He].
  split; [by apply list_elem_of_In|].
  unfold has_email in He. by apply bool_decide_eq_true in He.
Qed.

Lemma count_email_zero e st :
  count_email e st = 0 -> forall u, u ∈ users st -> User.email u <> e.
Proof.
  unfold count_email. intros H u Hu He.
  assert (Hin : In u (List.filter (has_email e) (users st))).
  { apply List.filter_In. split; [by apply list_elem_of_In|].
    unfold has_email. by apply bool_decide_eq_true. }
  destruct (List.filter (has_email e) (users st)); [done|discriminate].
Qed.

Lemma count_email_pos e st :
  0 < count_email e st -> exists u, u ∈ users st /\ User.email u = e.
Proof.
  unfold count_email. intros H.
  destruct (List.filter (has_email e) (users st)) as [|u l] eqn:E;
    [cbn in H; lia|].
  assert (Hin : In u (List.filter (has_email e) (users st)))
    by (rewrite E; left; reflexivity).
  apply List.filter_In in Hin as [Hin He].
  exists u. split; [by apply list_elem_of_In|].
  unfold has_email in He. by apply bool_decide_eq_true in He.
Qed.

Lemma register_existing env r st u :
  db_fault env 0 = false ->
  u ∈ users st -> User.email u = body_email (body r) ->
  register env r st = (st, DuplicateUser).
Proof.
  intros Hdb Hin He.
  destruct (find_has_email_Some _ _ _ Hin He) as (v & Hf & _).
  unfold_handlers. by rewrite Hdb, Hf.
Qed.

Lemma register_fresh env r st :
  no_db_fault env ->
  (forall u, u ∈ users st -> User.email u <> body_email (body r)) ->
  let newUser :=
    User.mk (next_oid st) (body_name (body r)) (body_email (body r))
            (bcrypt_hash (body_password (body r)) 10 (salt env))
            (body_createdAt (body r)) [] in
  register env r st =
    (mkState (users st ++ [newUser]) (files st) (gridfs st) (S (next_oid st)),
     Respond 201 (AuthBody "User registered successfully!!" newUser
                    (jwt_sign (claims_of newUser) JWT_SECRET (clock env)))).
Proof.
  intros Hdb Hnone. cbn zeta.
  unfold_handlers. rewrite !Hdb, (find_has_email_None _ _ Hnone).
  reflexivity.
Qed.

(** C1. Registering an email that a stored user already has answers
    [DuplicateUser], a 400, and leaves the database as it was; hence of
    two registrations with one email, made on a store that holds the
    email at most once, the second answers [DuplicateUser] and exactly
    one user with that email is stored afterwards. *)
Theorem register_duplicate_user :
  (forall env r st u,
      db_fault env 0 = false ->
      u ∈ users st -> User.email u = body_email (body r) ->
      register env r st = (st, DuplicateUser) /\
      exists b, DuplicateUser = Respond 400 b) /\
  (forall env1 env2 r1 r2 st,
      no_db_fault env1 -> no_db_fault env2 ->
      body_email (body r2) = body_email (body r1) ->
      count_email (body_email (body r1)) st <= 1 ->
      let st1 := (register env1 r1 st).1 in
      register env2 r2 st1 = (st1, DuplicateUser) /\
      count_email (body_email (body r1)) st1 = 1).
Proof.
  split.
  - intros env r st u Hdb Hin He. split; [by eapply register_existing|].
    by eexists.
  - intros env1 env2 r1 r2 st H1 H2 He Hc. cbn zeta.
    destruct (count_email (body_email (body r1)) st) as [|n] eqn:Ec.
    + pose proof (count_email_zero _ _ Ec) as Hnone.
      rewrite (register_fresh env1 r1 st H1 Hnone). cbn [fst].
      split.
      * eapply register_existing; [apply H2| |].
        -- cbn. apply elem_of_app. right. apply list_elem_of_singleton.
           reflexivity.
        -- cbn. by rewrite He.
      * unfold count_email in *. cbn [users].
        rewrite List.filter_app, length_app, Ec. cbn.
        unfold has_email. by rewrite bool_decide_eq_true_2.
    + assert (Hpos : 0 < count_email (body_email (body r1)) st) by lia.
      destruct (count_email_pos _ _ Hpos) as (u & Hin & Hu).
      rewrite (register_existing env1 r1 st u (H1 0) Hin Hu). cbn [fst].
      split; [|lia].
      eapply register_existing; [apply H2|exact Hin|by rewrite He].
Qed.

Lemma validateToken_verified req tok d :
  headers (request req) !! "token" = Some tok ->
  jwt_verify tok JWT_SECRET = Some d ->
  validateToken req = inr (set_user req d).
Proof.
  intros Hh Hv. unfold validateToken. rewrite Hh.
  destruct tok as [|a tok].
  - by rewrite jwt_verify_empty in Hv.
  - cbn. by rewrite Hv.
Qed.

(** C3. [validateToken] answers [Unauthorized] when the [token] header is
    absent (or empty, which JavaScript treats alike), answers
    [InvalidToken] when the token it passes to [jwt.verify] is rejected,
    both with status 401, and otherwise calls [next()] with the decoded
    claims, [userId] among them, in [req.user].  On [/upload] an answer
    of the middleware is the answer of the route and nothing is written;
    only the request it passes on reaches multer and the handler. *)
Theorem validateToken_outcomes (req : Req) :
  (headers (request req) !! "token" = None ->
   validateToken req = inl Unauthorized) /\
  (headers (request req) !! "token" = Some "" ->
   validateToken req = inl Unauthorized) /\
  (forall tok,
      headers (request req) !! "token" = Some tok -> tok <> "" ->
      jwt_verify tok JWT_SECRET = None ->
      validateToken req = inl InvalidToken) /\
  (forall tok d,
      headers (request req) !! "token" = Some tok ->
      jwt_verify tok JWT_SECRET = Some d ->
      validateToken req = inr (set_user req d) /\
      user (set_user req d) = Some d /\
      request (set_user req d) = request req /\
      file (set_user req d) = file req) /\
  (exists b1 b2, Unauthorized = Respond 401 b1 /\ InvalidToken = Respond 401 b2) /\
  (forall env (r : Request) st reply,
      validateToken (incoming r) = inl reply ->
      post_upload env r st = (st, reply)) /\
  (forall env (r : Request) st req1,
      validateToken (incoming r) = inr req1 ->
      post_upload env r st =
        match upload_single env req1 st with
        | (st1, Throw e) => (st1, DefaultError e)
        | (st1, Ok req2) => run_async (upload_handler env req2) st1
        end).
Proof.
  split; [|split; [|split; [|split; [|split; [|split]]]]].
  - intros H. unfold validateToken. by rewrite H.
  - intros H. unfold validateToken. by rewrite H.
  - intros tok H Hne Hv. unfold validateToken. rewrite H.
    destruct tok as [|a tok]; [done|]. cbn. by rewrite Hv.
  - intros tok d H Hv. split; [|done].
    by apply (validateToken_verified req tok d).
  - by do 2 eexists.
  - intros env r st reply H. unfold post_upload. by rewrite H.
  - intros env r st req1 H. unfold post_upload. by rewrite H.
Qed.

(** C4. [login] answers [UserNotFound] when no stored user has the email,
    [InvalidCredentials] when the first user with the email is found and
    [bcrypt.compare] rejects the password, [ServerError], a 500 with a
    fixed message, when the lookup fails, and otherwise the user with a
    token signed for it; it never changes the database. *)
Theorem login_outcomes env (r : Request) st :
  let e := body_email (body r) in
  let pw := body_password (body r) in
  (db_fault env 0 = false ->
   (forall u, u ∈ users st -> User.email u <> e) ->
   login env r st = (st, UserNotFound)) /\
  (forall u,
      db_fault env 0 = false ->
      List.find (has_email e) (users st) = Some u ->
      bcrypt_compare pw (User.password u) = false ->
      login env r st = (st, InvalidCredentials)) /\
  (db_fault env 0 = true ->
   login env r st = (st, ServerError) /\
   ServerError = Respond 500 (MsgBody "Server error")) /\
  (forall u,
      db_fault env 0 = false ->
      List.find (has_email e) (users st) = Some u ->
      bcrypt_compare pw (User.password u) = true ->
      login env r st =
        (st, Respond 200 (AuthBody "User logged in successfully!" u
                            (jwt_sign (claims_of u) JWT_SECRET (clock env))))).
Proof.
  cbn zeta. split; [|split; [|split]].
  - intros Hdb Hnone. unfold_handlers.
    by rewrite Hdb, (find_has_email_None _ _ Hnone).
  - intros u Hdb Hf Hc. unfold_handlers. by rewrite Hdb, Hf, Hc.
  - intros Hdb. unfold_handlers. by rewrite Hdb.
  - intros u Hdb Hf Hc. unfold_handlers. by rewrite Hdb, Hf, Hc.
Qed.

(** C8. An upload whose token verifies but which carries no file part
    answers [NoFilePresent] and leaves the whole database, GridFS and
    both collections, as it was. *)
Theorem upload_without_payload env (r : Request) st tok d :
  headers r !! "token" = Some tok ->
  jwt_verify tok JWT_SECRET = Some d ->
  part r = None ->
  post_upload env r st = (st, NoFilePresent).
Proof.
  intros Hh Hv Hp. unfold post_upload.
  rewrite (validateToken_verified (incoming r) tok d Hh Hv).
  unfold upload_single. cbn [set_user request incoming]. rewrite Hp.
  reflexivity.
Qed.

(** C7, as the code has it. [DELETE /files/:id] answers [StorageError]
    when GridFS reports an error and success otherwise, whether or not a
    file with the id exists; it has no [NotFound] answer, and it never
    touches the [File] or the [User] collection. *)
Theorem delete_file_outcomes env (r : Request) st :
  files (delete_file env r st).1 = files st /\
  users (delete_file env r st).1 = users st /\
  (gridfs_fault env = true -> delete_file env r st = (st, StorageError)) /\
  (gridfs_fault env = false ->
   (delete_file env r st).2 = Deleted /\
   gridfs (delete_file env r st).1 =
     List.filter (fun g => negb (in_bucket "uploads" (params_id r) g))
                 (gridfs st)) /\
  (delete_file env r st).2 <> NotFound.
Proof.
  unfold delete_file, gfs_remove.
  destruct (gridfs_fault env); cbn;
    (split; [|split; [|split; [|split]]]); done.
Qed.

Lemma register_AuthBody env r st st' s m u tok :
  register env r st = (st', Respond s (AuthBody m u tok)) ->
  u ∈ users st' /\
  User.password u = bcrypt_hash (body_password (body r)) 10 (salt env) /\
  tok = jwt_sign (claims_of u) JWT_SECRET (clock env).
Proof.
  unfold_handlers.
  destruct (db_fault env 0); [discriminate|].
  destruct (List.find _ (users st)); [discriminate|].
  destruct (db_fault env 1); [discriminate|].
  intros [= <- _ _ <- <-]. cbn. split; [|done].
  apply elem_of_app. right. by apply list_elem_of_singleton.
Qed.

Lemma login_AuthBody env r st st' s m u tok :
  login env r st = (st', Respond s (AuthBody m u tok)) ->
  st' = st /\ u ∈ users st /\
  bcrypt_compare (body_password (body r)) (User.password u) = true /\
  tok = jwt_sign (claims_of u) JWT_SECRET (clock env).
Proof.
  unfold_handlers.
  destruct (db_fault env 0); [discriminate|].
  destruct (List.find _ (users st)) as [v|] eqn:Hf; [|discriminate].
  destruct (bcrypt_compare _ _) eqn:Hc; [|discriminate].
  cbn. intros [= <- _ _ <- <-].
  apply find_has_email_elem in Hf as [Hin _]. done.
Qed.

(** C10. Every successful [/register] and [/login] response carries the
    stored user document, password hash included.  A 201 of [register]
    has the body [{ msg, user, token }] whose [user] is the document just
    appended to the collection, with the bcrypt hash of the submitted
    password as its [password]; a 200 of [login] has that body with the
    document the lookup found, whose [password] is the hash the submitted
    password was compared with; in both the token signs claims that
    hold the same hash.  And these answers are given: [register]
    answers 201 for a free email, [login] 200 for a stored user and an
    accepted password. *)
Theorem auth_response_carries_password_hash :
  (forall env (r : Request) st st' b,
      register env r st = (st', Respond 201 b) ->
      exists u tok,
        b = AuthBody "User registered successfully!!" u tok /\
        users st' = users st ++ [u] /\
        User.password u = bcrypt_hash (body_password (body r)) 10 (salt env) /\
        tok = jwt_sign (claims_of u) JWT_SECRET (clock env) /\
        Claims.password (claims_of u) = User.password u) /\
  (forall env (r : Request) st st' b,
      login env r st = (st', Respond 200 b) ->
      exists u tok,
        b = AuthBody "User logged in successfully!" u tok /\
        st' = st /\
        List.find (has_email (body_email (body r))) (users st) = Some u /\
        u ∈ users st /\
        bcrypt_compare (body_password (body r)) (User.password u) = true /\
        tok = jwt_sign (claims_of u) JWT_SECRET (clock env) /\
        Claims.password (claims_of u) = User.password u) /\
  (forall env (r : Request) st,
      no_db_fault env ->
      (forall u, u ∈ users st -> User.email u <> body_email (body r)) ->
      exists st' b, register env r st = (st', Respond 201 b)) /\
  (forall env (r : Request) st u,
      db_fault env 0 = false ->
      List.find (has_email (body_email (body r))) (users st) = Some u ->
      bcrypt_compare (body_password (body r)) (User.password u) = true ->
      exists b, login env r st = (st, Respond 200 b)).
Proof.
  split; [|split; [|split]].
  - intros env r st st' b. unfold_handlers.
    destruct (db_fault env 0); [discriminate|].
    destruct (List.find _ (users st)); [discriminate|].
    destruct (db_fault env 1); [discriminate|].
    intros [= <- <-]. by eexists _, _.
  - intros env r st st' b. unfold_handlers.
    destruct (db_fault env 0); [discriminate|].
    destruct (List.find _ (users st)) as [v|] eqn:Hf; [|discriminate].
    destruct (bcrypt_compare _ _) eqn:Hc; [|discriminate].
    cbn. intros [= <- <-].
    pose proof (find_has_email_elem _ _ _ Hf) as [Hin _].
    by eexists _, _.
  - intros env r st Hdb Hnone.
    pose proof (register_fresh env r st Hdb Hnone) as Hr. cbn zeta in Hr.
    by eexists _, _.
  - intros env r st u Hdb Hf Hc. unfold_handlers.
    rewrite Hdb, Hf, Hc. by eexists.
Qed.

(** **** Upload *)

Lemma update_by_id_length i f (us : list User.t) :
  length (update_by_id i f us) = length us.
Proof.
  induction us as [|u us IH]; [reflexivity|].
  cbn. case_bool_decide; cbn; [reflexivity|]. by rewrite IH.
Qed.

Lemma update_by_id_other i f (us : list User.t) k v :
  us !! k = Some v -> User._id v <> i -> update_by_id i f us !! k = Some v.
Proof.
  revert k. induction us as [|u us IH]; intros k Hk Hne; [done|].
  cbn. destruct k as [|k]; cbn in Hk.
  - injection Hk as ->. by rewrite bool_decide_eq_false_2.
  - case_bool_decide; cbn; [done|]. by apply IH.
Qed.

Lemma find_by_id_update i fn (us : list User.t) u :
  find_by_id i us = Some u ->
  find_by_id i (update_by_id i (push_file fn) us) = Some (push_file fn u).
Proof.
  unfold find_by_id.
  induction us as [|v us IH]; [done|].
  cbn. case_bool_decide as Hv.
  - intros [= ->]. cbn. by rewrite bool_decide_eq_true_2.
  - intros H. cbn. rewrite bool_decide_eq_false_2 by done. by apply IH.
Qed.

Lemma post_upload_stored env (r : Request) st tok d p :
  no_db_fault env -> gridfs_fault env = false ->
  headers r !! "token" = Some tok ->
  jwt_verify tok JWT_SECRET = Some d ->
  part r = Some p ->
  post_upload env r st =
    (mkState (update_by_id (Claims.userId (claims d))
                           (push_file (part_originalname p)) (users st))
             (files st ++ [file_record st p d])
             (gridfs st ++ [stored_blob st p])
             (S (S (next_oid st))),
     Respond 201 (UploadBody "File saved in database" (file_record st p d))).
Proof.
  intros Hdb Hg Hh Hv Hp. unfold post_upload.
  rewrite (validateToken_verified (incoming r) tok d Hh Hv).
  unfold_handlers. cbn [set_user request]. rewrite Hp, Hg.
  cbn. by rewrite !Hdb.
Qed.

Lemma post_upload_blob env (r : Request) st tok d p :
  gridfs_fault env = false ->
  headers r !! "token" = Some tok ->
  jwt_verify tok JWT_SECRET = Some d ->
  part r = Some p ->
  gridfs (post_upload env r st).1 = gridfs st ++ [stored_blob st p] /\
  next_oid (post_upload env r st).1 = S (S (next_oid st)).
Proof.
  intros Hg Hh Hv Hp. unfold post_upload.
  rewrite (validateToken_verified (incoming r) tok d Hh Hv).
  unfold_handlers. cbn [set_user request]. rewrite Hp, Hg. cbn.
  destruct (db_fault env 0); [done|].
  destruct (db_fault env 1); done.
Qed.

(** C2. An upload whose token verifies and which carries a file part adds
    exactly one [File] document, owned by the [userId] of the token's
    claims and named by the storage filename, and appends that filename,
    once, to the file list of the user with that [_id]; every other user
    and every other [File] document stays as it was. *)
Theorem upload_creates_one_file env (r : Request) st tok d p u :
  no_db_fault env -> gridfs_fault env = false ->
  headers r !! "token" = Some tok ->
  jwt_verify tok JWT_SECRET = Some d ->
  part r = Some p ->
  find_by_id (Claims.userId (claims d)) (users st) = Some u ->
  exists f g,
    let st' := (post_upload env r st).1 in
    (post_upload env r st).2 =
      Respond 201 (UploadBody "File saved in database" f) /\
    files st' = files st ++ [f] /\
    File.owner f = Claims.userId (claims d) /\
    gridfs st' = gridfs st ++ [g] /\
    File.filename f = g_filename g /\
    find_by_id (Claims.userId (claims d)) (users st') =
      Some (push_file (g_filename g) u) /\
    User.files (push_file (g_filename g) u) = User.files u ++ [g_filename g] /\
    length (users st') = length (users st) /\
    (forall k v, users st !! k = Some v ->
                 User._id v <> Claims.userId (claims d) ->
                 users st' !! k = Some v).
Proof.
  intros Hdb Hg Hh Hv Hp Hu.
  exists (file_record st p d), (stored_blob st p). cbn zeta.
  rewrite (post_upload_stored env r st tok d p Hdb Hg Hh Hv Hp).
  cbn [fst snd users files gridfs file_record stored_blob g_filename
       File.owner File.filename].
  repeat (split; [done|]).
  split; [by apply find_by_id_update|].
  split; [done|].
  split; [apply update_by_id_length|].
  intros k v. apply update_by_id_other.
Qed.

(** C5, as the code has it. The storage engine is told to name the blob
    after the client's original filename, so the storage filename of an
    upload is its original name and only the blob's [_id] is generated:
    two uploads with one original filename get the same storage filename
    under different ids. *)
Theorem upload_storage_filename :
  (forall req p, storage_file req p = Some (part_originalname p)) /\
  (forall env (r : Request) st tok d p,
      gridfs_fault env = false ->
      headers r !! "token" = Some tok ->
      jwt_verify tok JWT_SECRET = Some d ->
      part r = Some p ->
      exists g,
        gridfs (post_upload env r st).1 = gridfs st ++ [g] /\
        g_filename g = part_originalname p /\
        g_id g = next_oid st /\
        g_data g = part_data p) /\
  (forall env1 env2 (r1 r2 : Request) st tok1 tok2 d1 d2 p1 p2,
      gridfs_fault env1 = false -> gridfs_fault env2 = false ->
      headers r1 !! "token" = Some tok1 ->
      jwt_verify tok1 JWT_SECRET = Some d1 ->
      headers r2 !! "token" = Some tok2 ->
      jwt_verify tok2 JWT_SECRET = Some d2 ->
      part r1 = Some p1 -> part r2 = Some p2 ->
      part_originalname p1 = part_originalname p2 ->
      exists g1 g2,
        gridfs (post_upload env2 r2 (post_upload env1 r1 st).1).1 =
          gridfs st ++ [g1; g2] /\
        g_filename g1 = g_filename g2 /\
        g_id g1 <> g_id g2).
Proof.
  split; [done|]. split.
  - intros env r st tok d p Hg Hh Hv Hp.
    exists (stored_blob st p).
    by destruct (post_upload_blob env r st tok d p Hg Hh Hv Hp) as [-> _].
  - intros env1 env2 r1 r2 st tok1 tok2 d1 d2 p1 p2
      Hg1 Hg2 Hh1 Hv1 Hh2 Hv2 Hp1 Hp2 Hn.
    destruct (post_upload_blob env1 r1 st tok1 d1 p1 Hg1 Hh1 Hv1 Hp1)
      as [E1 N1].
    destruct (post_upload_blob env2 r2 (post_upload env1 r1 st).1
                tok2 d2 p2 Hg2 Hh2 Hv2 Hp2) as [E2 _].
    exists (stored_blob st p1), (stored_blob (post_upload env1 r1 st).1 p2).
    rewrite E2, E1, <- app_assoc. cbn. rewrite N1.
    split; [done|]. split; [done|]. lia.
Qed.

(** C9. Registering a fresh email and then logging in with the same email
    and password both succeed, on the same user document, and the two
    tokens verify under the signing secret to the same claims, those of
    that user; and whatever token [register] or [login] returns verifies
    to the claims of the user it is returned with. *)
Theorem register_then_login :
  (forall env1 env2 (r1 r2 : Request) st,
      no_db_fault env1 -> no_db_fault env2 ->
      (forall u, u ∈ users st -> User.email u <> body_email (body r1)) ->
      body_email (body r2) = body_email (body r1) ->
      body_password (body r2) = body_password (body r1) ->
      exists st1 u T1 T2 d1 d2,
        register env1 r1 st =
          (st1, Respond 201 (AuthBody "User registered successfully!!" u T1)) /\
        login env2 r2 st1 =
          (st1, Respond 200 (AuthBody "User logged in successfully!" u T2)) /\
        jwt_verify T1 JWT_SECRET = Some d1 /\
        jwt_verify T2 JWT_SECRET = Some d2 /\
        claims d1 = claims_of u /\ claims d2 = claims_of u) /\
  (forall env (r : Request) st st' s m u tok,
      register env r st = (st', Respond s (AuthBody m u tok)) \/
      login env r st = (st', Respond s (AuthBody m u tok)) ->
      jwt_verify tok JWT_SECRET = Some (mkDecoded (claims_of u) (clock env))).
Proof.
  split.
  - intros env1 env2 r1 r2 st H1 H2 Hnone He Hp.
    pose proof (register_fresh env1 r1 st H1 Hnone) as Hr. cbn zeta in Hr.
    eexists _, _, _, _, _, _. split; [exact Hr|].
    split; [|split; [apply jwt_verify_sign|split;
                     [apply jwt_verify_sign|split; reflexivity]]].
    unfold_handlers. rewrite H2. cbn [users].
    rewrite He, find_app_None.
    + cbn. unfold has_email. rewrite bool_decide_eq_true_2 by done.
      cbn. rewrite Hp, bcrypt_compare_hash. reflexivity.
    + by apply find_has_email_None.
  - intros env r st st' s m u tok [H|H].
    + apply register_AuthBody in H as (_ & _ & ->). apply jwt_verify_sign.
    + apply login_AuthBody in H as (_ & _ & _ & ->). apply jwt_verify_sign.
Qed.

(** **** The owner of a file exists *)

Lemma known_id_ids i st :
  known_id i st <-> i ∈ User._id <$> users st.
Proof.
  unfold known_id. rewrite list_elem_of_fmap. split.
  - intros (u & Hu & <-). by exists u.
  - intros (u & -> & Hu). by exists u.
Qed.

Lemma update_by_id_fmap_ids i fn (us : list User.t) :
  User._id <$> update_by_id i (push_file fn) us = User._id <$> us.
Proof.
  induction us as [|u us IH]; [reflexivity|].
  cbn. case_bool_decide; cbn; [reflexivity|]. by rewrite IH.
Qed.

Lemma register_state env r st :
  files (register env r st).1 = files st /\
  (users (register env r st).1 = users st \/
   exists u, users (register env r st).1 = users st ++ [u]).
Proof.
  unfold_handlers.
  destruct (db_fault env 0); [by auto|].
  destruct (List.find _ (users st)); [by auto|].
  destruct (db_fault env 1); cbn; [by auto|].
  split; [done|]. right. by eexists.
Qed.

Lemma login_state env r st : (login env r st).1 = st.
Proof.
  unfold_handlers.
  destruct (db_fault env 0); [done|].
  destruct (List.find _ (users st)); [|done].
  by destruct (negb _).
Qed.

Lemma post_upload_state env (r : Request) st :
  User._id <$> users (post_upload env r st).1 = User._id <$> users st /\
  tokens_of (post_upload env r st).2 = [] /\
  (files (post_upload env r st).1 = files st \/
   exists tok d f,
     headers r !! "token" = Some tok /\
     jwt_verify tok JWT_SECRET = Some d /\
     files (post_upload env r st).1 = files st ++ [f] /\
     File.owner f = Claims.userId (claims d)).
Proof.
  unfold post_upload, validateToken. cbn [incoming request].
  destruct (headers r !! "token") as [tok|] eqn:Hh; [|by auto].
  destruct tok as [|a tok]; [by auto|]. cbn [truthy negb default].
  destruct (jwt_verify _ JWT_SECRET) as [d|] eqn:Hv; [|by auto].
  unfold_handlers. cbn [set_user request].
  destruct (part r) as [p|]; [|by auto].
  destruct (gridfs_fault env); [by auto|]. cbn.
  destruct (db_fault env 0); [by auto|].
  destruct (db_fault env 1); cbn.
  - split; [done|]. split; [done|]. right. by eexists _, _, _.
  - rewrite update_by_id_fmap_ids.
    split; [done|]. split; [done|]. right. by eexists _, _, _.
Qed.

Lemma delete_file_state env (r : Request) st :
  files (delete_file env r st).1 = files st /\
  users (delete_file env r st).1 = users st /\
  tokens_of (delete_file env r st).2 = [].
Proof.
  unfold delete_file, gfs_remove. by destruct (gridfs_fault env).
Qed.

Lemma get_file_state env (r : Request) st :
  (get_file env r st).1 = st /\ tokens_of (get_file env r st).2 = [].
Proof.
  unfold get_file, gfs_files_findOne.
  destruct (gridfs_fault env); [done|].
  by destruct (List.find _ (gridfs st)).
Qed.

(** No request removes a user. *)
Lemma app_known_id rt env r st i :
  known_id i st -> known_id i (app rt env r st).1.
Proof.
  destruct rt; cbn [app]; try done.
  - unfold known_id.
    destruct (register_state env r st) as [_ [->|[u ->]]]; [done|].
    intros (v & Hv & <-). exists v. split; [|done].
    apply elem_of_app. by left.
  - by rewrite login_state.
  - rewrite !known_id_ids.
    by destruct (post_upload_state env r st) as [-> _].
  - by destruct (get_file_state env r st) as [-> _].
  - unfold known_id.
    by destruct (delete_file_state env r st) as (_ & -> & _).
Qed.

(** A token the server hands out carries the [_id] of a stored user. *)
Lemma app_tokens rt env r st tok :
  tok ∈ tokens_of (app rt env r st).2 ->
  exists u, u ∈ users (app rt env r st).1 /\
            tok = jwt_sign (claims_of u) JWT_SECRET (clock env).
Proof.
  destruct rt; cbn [app].
  - cbn. by intros ?%elem_of_nil.
  - destruct (register env r st) as [st' [s [| | |m u t| | |]| |]] eqn:E;
      cbn; try by intros ?%elem_of_nil.
    intros ->%list_elem_of_singleton.
    apply register_AuthBody in E as (? & _ & ?). by exists u.
  - destruct (login env r st) as [st' [s [| | |m u t| | |]| |]] eqn:E;
      cbn; try by intros ?%elem_of_nil.
    intros ->%list_elem_of_singleton.
    apply login_AuthBody in E as (-> & ? & _ & ?). by exists u.
  - destruct (post_upload_state env r st) as (_ & -> & _).
    by intros ?%elem_of_nil.
  - destruct (get_file_state env r st) as [_ ->]. by intros ?%elem_of_nil.
  - destruct (delete_file_state env r st) as (_ & _ & ->).
    by intros ?%elem_of_nil.
Qed.

(** The files a request leaves behind are those it found, or one more
    whose owner is the [userId] of the token the request presented. *)
Lemma app_files rt env r st f :
  f ∈ files (app rt env r st).1 ->
  f ∈ files st \/
  exists tok d,
    headers r !! "token" = Some tok /\
    jwt_verify tok JWT_SECRET = Some d /\
    File.owner f = Claims.userId (claims d).
Proof.
  destruct rt; cbn [app]; auto.
  - destruct (register_state env r st) as [-> _]. auto.
  - rewrite login_state. auto.
  - destruct (post_upload_state env r st)
      as (_ & _ & [->|(tok & d & g & Hh & Hv & -> & Ho)]); [by auto|].
    intros [Hf| ->%list_elem_of_singleton]%elem_of_app; [by auto|].
    right. by exists tok, d.
  - destruct (get_file_state env r st) as [-> _]. auto.
  - destruct (delete_file_state env r st) as (-> & _). auto.
Qed.

Lemma reachable_invariant st issued :
  reachable st issued -> owner_exists st /\ tokens_known issued st.
Proof.
  induction 1 as [|st issued rt env r Hreach [IHo IHt] Hpres].
  - split.
    + intros f Hf. by apply elem_of_nil in Hf.
    + intros tok d Hin. by apply elem_of_nil in Hin.
  - split.
    + intros f Hf. apply app_files in Hf as [Hf|(tok & d & Hh & Hv & Ho)].
      * apply app_known_id. by apply IHo.
      * rewrite Ho. apply app_known_id.
        apply (IHt tok d); [|done]. by apply (Hpres tok d).
    + intros tok d [Hin|Hin]%elem_of_app Hv.
      * apply app_known_id. by apply (IHt tok d).
      * apply app_tokens in Hin as (u & Hu & ->).
        rewrite jwt_verify_sign in Hv. injection Hv as <-.
        by exists u.
Qed.

(** C6. In every state the server reaches from the empty database by
    requests to its routes, the [owner] of every [File] document is the
    [_id] of a stored user.  The requests are arbitrary but for the tokens
    they present, which either do not verify or were handed out by an
    earlier [register] or [login]: the signature cannot be forged. *)
Theorem owner_existence_invariant st issued :
  reachable st issued -> owner_exists st.
Proof.
  intros H. by apply reachable_invariant in H as [? _].
Qed.

(** ** Further properties of the handlers *)

(** **** The file routes *)

Lemma in_collection_string root t g :
  in_collection root (OfString t) g = false.
Proof. unfold in_collection. cbn. apply andb_false_r. Qed.

Lemma find_by_string_id root t (l : list GridFile) :
  List.find (in_collection root (OfString t)) l = None.
Proof.
  induction l as [|g l IH]; [done|].
  cbn [List.find]. by rewrite in_collection_string.
Qed.

(** X1. [GET /files/:id] never returns a file.  It hands the path
    parameter, a string, to the collection as it is, and the [_id] of
    a stored file is an ObjectId: whatever GridFS holds, a file with that
    very id in the bucket it reads included, the answer is 404, or 500
    when GridFS reports an error; and it never writes. *)
Theorem get_file_outcomes env (r : Request) st :
  (get_file env r st).1 = st /\
  (gridfs_fault env = true -> (get_file env r st).2 = RetrievalError) /\
  (gridfs_fault env = false -> (get_file env r st).2 = NotFound) /\
  (forall g, (get_file env r st).2 <> Respond 200 (FileBody g)) /\
  (exists b1 b2, RetrievalError = Respond 500 b1 /\ NotFound = Respond 404 b2).
Proof.
  unfold get_file, gfs_files_findOne. rewrite find_by_string_id.
  split; [|split; [|split; [|split]]].
  - by destruct (gridfs_fault env).
  - by intros ->.
  - by intros ->.
  - intros g. by destruct (gridfs_fault env).
  - by do 2 eexists.
Qed.



Lemma filter_filter_same {A} (Q : A -> bool) (l : list A) :
  List.filter Q (List.filter Q l) = List.filter Q l.
Proof.
  induction l as [|a l IH]; [done|].
  cbn. destruct (Q a) eqn:Hq; cbn; [|exact IH].
  by rewrite Hq, IH.
Qed.

(** X3. Deleting is idempotent: once [DELETE /files/:id] has succeeded,
    repeating it, whether GridFS then fails or not, leaves the database
    as the first deletion left it, and a repetition that does not fail
    answers success again. *)
Theorem delete_file_idempotent env1 env2 (r : Request) st :
  gridfs_fault env1 = false ->
  (delete_file env2 r (delete_file env1 r st).1).1 = (delete_file env1 r st).1 /\
  (gridfs_fault env2 = false ->
   (delete_file env2 r (delete_file env1 r st).1).2 = Deleted).
Proof.
  intros H1. unfold delete_file, gfs_remove. rewrite H1. cbn.
  destruct (gridfs_fault env2); cbn; [done|].
  by rewrite filter_filter_same.
Qed.

(** **** Upload *)

(** X4. Without a token that verifies, [/upload] writes nothing: whatever
    file the request carries and whatever the environment does, the
    database is as before and the answer is one of the two 401s. *)
Theorem upload_requires_verified_token env (r : Request) st :
  (forall tok d,
      headers r !! "token" = Some tok ->
      jwt_verify tok JWT_SECRET = Some d -> False) ->
  post_upload env r st = (st, Unauthorized) \/
  post_upload env r st = (st, InvalidToken).
Proof.
  intros Hno. unfold post_upload, validateToken. cbn [incoming request].
  destruct (headers r !! "token") as [tok|] eqn:Hh; [|by left].
  destruct tok as [|a tok]; [by left|]. cbn [truthy negb default].
  destruct (jwt_verify _ JWT_SECRET) as [d|] eqn:Hv; [|by right].
  destruct (Hno _ _ eq_refl Hv).
Qed.

(** X5. The upload is not atomic.  When the file part has been stored and
    [newFile.save()] then fails, the client gets no response, the blob
    stays in GridFS, and neither a [File] document nor an entry in the
    user's file list records it. *)
Theorem upload_metadata_failure_orphans_blob env (r : Request) st tok d p :
  gridfs_fault env = false ->
  db_fault env 0 = true ->
  headers r !! "token" = Some tok ->
  jwt_verify tok JWT_SECRET = Some d ->
  part r = Some p ->
  (post_upload env r st).2 = Unhandled "MongoError" /\
  gridfs (post_upload env r st).1 = gridfs st ++ [stored_blob st p] /\
  files (post_upload env r st).1 = files st /\
  users (post_upload env r st).1 = users st.
Proof.
  intros Hg Hdb Hh Hv Hp. unfold post_upload.
  rewrite (validateToken_verified (incoming r) tok d Hh Hv).
  unfold_handlers. cbn [set_user request]. rewrite Hp, Hg. cbn.
  by rewrite Hdb.
Qed.

(** X6. When [newFile.save()] succeeds and [User.findByIdAndUpdate] then
    fails, the client gets no response although the [File] document has
    been stored, and no user's file list names it. *)
Theorem upload_owner_list_failure env (r : Request) st tok d p :
  gridfs_fault env = false ->
  db_fault env 0 = false ->
  db_fault env 1 = true ->
  headers r !! "token" = Some tok ->
  jwt_verify tok JWT_SECRET = Some d ->
  part r = Some p ->
  (post_upload env r st).2 = Unhandled "MongoError" /\
  files (post_upload env r st).1 = files st ++ [file_record st p d] /\
  gridfs (post_upload env r st).1 = gridfs st ++ [stored_blob st p] /\
  users (post_upload env r st).1 = users st.
Proof.
  intros Hg Hdb0 Hdb1 Hh Hv Hp. unfold post_upload.
  rewrite (validateToken_verified (incoming r) tok d Hh Hv).
  unfold_handlers. cbn [set_user request]. rewrite Hp, Hg. cbn.
  by rewrite Hdb0, Hdb1.
Qed.

Lemma update_by_id_absent i f (us : list User.t) :
  find_by_id i us = None -> update_by_id i f us = us.
Proof.
  unfold find_by_id. induction us as [|u us IH]; [done|].
  cbn. case_bool_decide as Hu; [done|]. intros Hn. by rewrite IH.
Qed.

(** X7. The handler does not look the owner up.  A token that verifies
    but names a [userId] no stored user has still gets its file
    accepted: the answer is 201, the [File] document is stored with that
    owner, and no user's file list changes. *)
Theorem upload_unknown_owner env (r : Request) st tok d p :
  no_db_fault env -> gridfs_fault env = false ->
  headers r !! "token" = Some tok ->
  jwt_verify tok JWT_SECRET = Some d ->
  part r = Some p ->
  find_by_id (Claims.userId (claims d)) (users st) = None ->
  (post_upload env r st).2 =
    Respond 201 (UploadBody "File saved in database" (file_record st p d)) /\
  files (post_upload env r st).1 = files st ++ [file_record st p d] /\
  File.owner (file_record st p d) = Claims.userId (claims d) /\
  users (post_upload env r st).1 = users st.
Proof.
  intros Hdb Hg Hh Hv Hp Hnone.
  rewrite (post_upload_stored env r st tok d p Hdb Hg Hh Hv Hp).
  cbn [fst snd users files]. by rewrite update_by_id_absent.
Qed.

(** **** Registration and login *)

(** X8. [/register] has no [try]: when the lookup of the email or the
    insertion of the new user fails, the client gets no response at all
    (where [/login] answers 500), and no user is stored. *)
Theorem register_database_failure env (r : Request) st :
  (db_fault env 0 = true ->
   register env r st = (st, Unhandled "MongoError")) /\
  (db_fault env 0 = false -> db_fault env 1 = true ->
   (forall u, u ∈ users st -> User.email u <> body_email (body r)) ->
   (register env r st).2 = Unhandled "MongoError" /\
   users (register env r st).1 = users st /\
   files (register env r st).1 = files st).
Proof.
  split.
  - intros Hdb. unfold_handlers. by rewrite Hdb.
  - intros Hdb0 Hdb1 Hnone. unfold_handlers.
    rewrite Hdb0, (find_has_email_None _ _ Hnone). cbn. by rewrite Hdb1.
Qed.

(** **** What every route keeps *)

Lemma update_by_id_fmap {B} (g : User.t -> B) i f (us : list User.t) :
  (forall u, g (f u) = g u) ->
  g <$> update_by_id i f us = g <$> us.
Proof.
  intros Hg. induction us as [|u us IH]; [reflexivity|].
  cbn. case_bool_decide; cbn; [by rewrite Hg|]. by rewrite IH.
Qed.

Lemma update_by_id_lookup i f (us : list User.t) k u :
  us !! k = Some u ->
  update_by_id i f us !! k = Some u \/ update_by_id i f us !! k = Some (f u).
Proof.
  revert k. induction us as [|v us IH]; intros k Hk; [done|].
  cbn. destruct k as [|k]; cbn in Hk.
  - injection Hk as ->. case_bool_decide; cbn; auto.
  - case_bool_decide; cbn; [by left|]. by apply IH.
Qed.

Lemma register_cases env (r : Request) st :
  files (register env r st).1 = files st /\
  gridfs (register env r st).1 = gridfs st /\
  next_oid st <= next_oid (register env r st).1 /\
  (users (register env r st).1 = users st \/
   exists u,
     users (register env r st).1 = users st ++ [u] /\
     User._id u = next_oid st /\
     User.email u = body_email (body r) /\
     User.files u = [] /\
     next_oid (register env r st).1 = S (next_oid st) /\
     List.find (has_email (body_email (body r))) (users st) = None).
Proof.
  unfold_handlers.
  destruct (db_fault env 0); [by auto|].
  destruct (List.find _ (users st)) eqn:Hf; [by auto|].
  destruct (db_fault env 1); cbn; [by auto 6|].
  repeat (split; [done || lia|]). right. by eexists.
Qed.

Lemma post_upload_cases env (r : Request) st :
  next_oid st <= next_oid (post_upload env r st).1 /\
  (users (post_upload env r st).1 = users st \/
   exists i fn,
     users (post_upload env r st).1
       = update_by_id i (push_file fn) (users st)) /\
  (gridfs (post_upload env r st).1 = gridfs st \/
   exists p, gridfs (post_upload env r st).1 = gridfs st ++ [stored_blob st p]).
Proof.
  unfold post_upload, validateToken. cbn [incoming request].
  destruct (headers r !! "token") as [tok|]; [|by auto].
  destruct tok as [|a tok]; [by auto|]. cbn [truthy negb default].
  destruct (jwt_verify _ JWT_SECRET) as [d|]; [|by auto].
  unfold_handlers. cbn [set_user request].
  destruct (part r) as [p|]; [|by auto].
  destruct (gridfs_fault env); [by auto|]. cbn.
  destruct (db_fault env 0); cbn.
  { split; [lia|]. split; [by left|]. right. by exists p. }
  destruct (db_fault env 1); cbn.
  { split; [lia|]. split; [by left|]. right. by exists p. }
  split; [lia|]. split; [right; by eexists _, _|]. right. by exists p.
Qed.

Lemma delete_file_cases env (r : Request) st :
  next_oid (delete_file env r st).1 = next_oid st /\
  (forall g, g ∈ gridfs (delete_file env r st).1 -> g ∈ gridfs st).
Proof.
  unfold delete_file, gfs_remove.
  destruct (gridfs_fault env); cbn; [done|].
  split; [done|]. intros g Hg.
  apply list_elem_of_In in Hg. apply List.filter_In in Hg as [Hg _].
  by apply list_elem_of_In.
Qed.

Lemma run_invariant (P : State -> Prop) :
  (forall rt env r st, P st -> P (app rt env r st).1) ->
  forall calls st, P st -> P (run calls st).
Proof.
  intros Hstep calls. induction calls as [|c calls IH]; intros st HP; [done|].
  cbn. apply IH. by apply Hstep.
Qed.

Lemma app_emails_unique rt env r st :
  NoDup (User.email <$> users st) ->
  NoDup (User.email <$> users (app rt env r st).1).
Proof.
  destruct rt; cbn [app]; try done.
  - destruct (register_cases env r st)
      as (_ & _ & _ & [->|(u & -> & _ & He & _ & _ & Hf)]); [done|].
    intros Hnd. rewrite fmap_app. apply NoDup_app.
    split; [done|]. split; [|apply NoDup_singleton].
    intros e [v [-> Hv]]%list_elem_of_fmap Hin.
    cbn in Hin. apply list_elem_of_singleton in Hin.
    apply list_elem_of_In in Hv.
    pose proof (List.find_none _ _ Hf v Hv) as Hb.
    unfold has_email in Hb. apply bool_decide_eq_false in Hb.
    apply Hb. by rewrite Hin, He.
  - by rewrite login_state.
  - destruct (post_upload_cases env r st) as (_ & [->|(i & fn & ->)] & _);
      [done|].
    by rewrite update_by_id_fmap.
  - by destruct (get_file_state env r st) as [-> _].
  - by destruct (delete_file_state env r st) as (_ & -> & _).
Qed.

(** X9. Served one after the other, the requests never leave two users
    with one email: [/register] inserts only after its lookup found
    none, and no other route writes an email. *)
Theorem emails_unique_invariant calls :
  NoDup (User.email <$> users (run calls initial_state)).
Proof.
  apply (run_invariant (fun st => NoDup (User.email <$> users st))).
  - intros rt env r st. apply app_emails_unique.
  - cbn. apply NoDup_nil_2.
Qed.

Lemma app_files_prefix rt env r st :
  files st `prefix_of` files (app rt env r st).1.
Proof.
  destruct rt; cbn [app]; try done.
  - by destruct (register_state env r st) as [-> _].
  - by rewrite login_state.
  - destruct (post_upload_state env r st)
      as (_ & _ & [->|(tok & d & f & _ & _ & -> & _)]); [done|].
    by apply prefix_app_r.
  - by destruct (get_file_state env r st) as [-> _].
  - by destruct (delete_file_state env r st) as (-> & _).
Qed.

(** X10. No route removes or rewrites a [File] document: whatever the
    server is asked, deletions included, the [File] collection it had
    remains as the beginning of the collection it has afterwards. *)
Theorem files_append_only calls st :
  files st `prefix_of` files (run calls st).
Proof.
  revert st. induction calls as [|c calls IH]; intros st; [done|].
  cbn. etrans; [|apply IH]. apply app_files_prefix.
Qed.

Lemma same_account_refl u : same_account u u.
Proof. by repeat split. Qed.

Lemma app_account rt env r st k u :
  users st !! k = Some u ->
  exists u', users (app rt env r st).1 !! k = Some u' /\
             same_account u u' /\ User.files u `prefix_of` User.files u'.
Proof.
  intros Hk.
  assert (Hsame : exists u', users st !! k = Some u' /\ same_account u u' /\
                             User.files u `prefix_of` User.files u').
  { exists u. split; [done|]. split; [apply same_account_refl|done]. }
  destruct rt; cbn [app]; try done.
  - destruct (register_cases env r st)
      as (_ & _ & _ & [->|(v & -> & _)]); [done|].
    exists u. split; [by apply lookup_app_l_Some|].
    split; [apply same_account_refl|done].
  - by rewrite login_state.
  - destruct (post_upload_cases env r st) as (_ & [->|(i & fn & ->)] & _);
      [done|].
    destruct (update_by_id_lookup i (push_file fn) _ _ _ Hk) as [H|H].
    + exists u. split; [done|]. split; [apply same_account_refl|done].
    + exists (push_file fn u). split; [done|].
      split; [by repeat split|]. cbn. by apply prefix_app_r.
  - by destruct (get_file_state env r st) as [-> _].
  - by destruct (delete_file_state env r st) as (_ & -> & _).
Qed.

Lemma run_account calls st k u :
  users st !! k = Some u ->
  exists u', users (run calls st) !! k = Some u' /\
             same_account u u' /\ User.files u `prefix_of` User.files u'.
Proof.
  revert st u. induction calls as [|c calls IH]; intros st u Hk.
  - exists u. split; [done|]. split; [apply same_account_refl|done].
  - cbn.
    destruct (app_account (call_route c) (call_env c) (call_request c)
                st k u Hk) as (u1 & Hk1 & (H1 & H2 & H3 & H4 & H5) & Hp1).
    destruct (IH _ _ Hk1) as (u2 & Hk2 & (G1 & G2 & G3 & G4 & G5) & Hp2).
    exists u2. split; [done|]. split.
    + unfold same_account. by rewrite G1, G2, G3, G4, G5.
    + by etrans.
Qed.

(** X11. An account, once stored, stays: after any requests the user
    document is still at its place in the collection with the same
    [_id], name, email, password hash and creation date, and its file
    list has only grown at the end. *)
Theorem accounts_never_change calls st k u :
  users st !! k = Some u ->
  exists u', users (run calls st) !! k = Some u' /\
             same_account u u' /\ User.files u `prefix_of` User.files u'.
Proof. apply run_account. Qed.

Lemma app_blobs_in_fs rt env r st :
  blobs_in "fs" st -> blobs_in "fs" (app rt env r st).1.
Proof.
  unfold blobs_in. destruct rt; cbn [app]; try done.
  - by destruct (register_cases env r st) as (_ & -> & _).
  - by rewrite login_state.
  - destruct (post_upload_cases env r st) as (_ & _ & [->|(p & ->)]); [done|].
    intros H g [Hg| ->%list_elem_of_singleton]%elem_of_app; [by apply H|done].
  - by destruct (get_file_state env r st) as [-> _].
  - intros H g Hg. apply H.
    by apply (proj2 (delete_file_cases env r st)).
Qed.

Lemma filter_all {A} (Q : A -> bool) (l : list A) :
  (forall x, x ∈ l -> Q x = true) -> List.filter Q l = l.
Proof.
  induction l as [|a l IH]; intros H; [done|].
  cbn. rewrite (H a) by left. rewrite IH; [done|].
  intros x Hx. apply H. by right.
Qed.

(** X12. The file routes never see an upload.  The storage engine writes
    every upload to its bucket ["fs"], [GET /files/:id] reads the bucket
    ["files"] and [DELETE /files/:id] the bucket ["uploads"]: in every
    state the server reaches from the empty database, [GET] returns no
    file, answering 404 unless GridFS fails, and [DELETE] leaves GridFS
    as it is. *)
Theorem uploads_never_retrievable calls env (r : Request) :
  let st := run calls initial_state in
  blobs_in "fs" st /\
  (forall g, (get_file env r st).2 <> Respond 200 (FileBody g)) /\
  (gridfs_fault env = false -> get_file env r st = (st, NotFound)) /\
  (delete_file env r st).1 = st.
Proof.
  cbn zeta.
  assert (Hfs : blobs_in "fs" (run calls initial_state)).
  { apply (run_invariant (blobs_in "fs")).
    - intros rt e q st. apply app_blobs_in_fs.
    - intros g Hg. by apply elem_of_nil in Hg. }
  assert (Hfind : forall root, root <> "fs" ->
            forall g, g ∈ gridfs (run calls initial_state) ->
                      in_bucket root (params_id r) g = false).
  { intros root Hroot g Hg. unfold in_bucket.
    rewrite bool_decide_eq_false_2; [done|]. by rewrite (Hfs g Hg). }
  assert (Hnone : List.find
                    (in_collection "files" (OfString (param_text (params_id r))))
                    (gridfs (run calls initial_state)) = None).
  { destruct (List.find _ _) as [g|] eqn:Hf; [|done].
    apply List.find_some in Hf as [Hin Hb].
    unfold in_collection in Hb. apply andb_prop in Hb as [Hb _].
    apply bool_decide_eq_true in Hb.
    apply list_elem_of_In in Hin. by rewrite (Hfs g Hin) in Hb. }
  split; [done|].
  unfold get_file, gfs_files_findOne, delete_file, gfs_remove.
  destruct (gridfs_fault env); cbn.
  - split; [done|]. split; [done|done].
  - rewrite Hnone. cbn. split; [done|]. split; [done|].
    rewrite filter_all; [by destruct (run calls initial_state)|].
    intros g Hg. by rewrite Hfind.
Qed.

(** X13. The routes that only read do not write: [GET /], [/login] in
    each of its outcomes, and [GET /files/:id] leave the database as it
    was, whatever the request and the environment. *)
Theorem read_routes_do_not_write env (r : Request) st :
  (app GET_root env r st).1 = st /\
  (app POST_login env r st).1 = st /\
  (app GET_files_id env r st).1 = st.
Proof.
  cbn [app]. split; [done|]. split; [apply login_state|].
  by destruct (get_file_state env r st) as [-> _].
Qed.

(** **** From registration to upload *)

Lemma app_ids_below rt env r st :
  ids_below st -> ids_below (app rt env r st).1.
Proof.
  unfold ids_below. destruct rt; cbn [app]; try done.
  - destruct (register_cases env r st)
      as (_ & _ & Hle & [->|(v & -> & Hv & _ & _ & -> & _)]).
    + intros H u Hu. specialize (H u Hu). lia.
    + intros H u [Hu| ->%list_elem_of_singleton]%elem_of_app; [|lia].
      specialize (H u Hu). lia.
  - by rewrite login_state.
  - destruct (post_upload_cases env r st) as (Hle & _).
    destruct (post_upload_state env r st) as (Hids & _).
    intros H u Hu.
    assert (Hi : User._id u ∈ User._id <$> users st).
    { rewrite <- Hids. apply list_elem_of_fmap. by exists u. }
    apply list_elem_of_fmap in Hi as (v & -> & Hv).
    specialize (H v Hv). lia.
  - by destruct (get_file_state env r st) as [-> _].
  - destruct (delete_file_cases env r st) as [-> _].
    by destruct (delete_file_state env r st) as (_ & -> & _).
Qed.

Lemma find_none_all {A} (P : A -> bool) (l : list A) :
  (forall x, x ∈ l -> P x = false) -> List.find P l = None.
Proof.
  induction l as [|a l IH]; intros H; [done|].
  cbn. rewrite (H a) by left. apply IH. intros x Hx. apply H. by right.
Qed.

Lemma register_AuthBody_stored env r st st' s m u tok :
  register env r st = (st', Respond s (AuthBody m u tok)) ->
  users st' = users st ++ [u] /\ User._id u = next_oid st /\
  User.files u = [] /\
  tok = jwt_sign (claims_of u) JWT_SECRET (clock env).
Proof.
  unfold_handlers.
  destruct (db_fault env 0); [discriminate|].
  destruct (List.find _ (users st)); [discriminate|].
  destruct (db_fault env 1); [discriminate|].
  by intros [= <- _ _ <- <-].
Qed.

(** X14. The token [/register] answers with opens [/upload] for the new
    user.  In any state the server reaches from the empty database, a
    successful registration followed by an upload that presents the
    returned token stores a [File] document owned by the new user, and
    that user's file list, empty until then, holds the one filename. *)
Theorem register_token_authorises_upload
    calls env1 env2 (r1 r2 : Request) st1 s m u T p :
  register env1 r1 (run calls initial_state)
    = (st1, Respond s (AuthBody m u T)) ->
  no_db_fault env2 -> gridfs_fault env2 = false ->
  headers r2 !! "token" = Some T ->
  part r2 = Some p ->
  exists f,
    (post_upload env2 r2 st1).2
      = Respond 201 (UploadBody "File saved in database" f) /\
    File.owner f = User._id u /\
    File.filename f = part_originalname p /\
    find_by_id (User._id u) (users (post_upload env2 r2 st1).1)
      = Some (push_file (part_originalname p) u) /\
    User.files (push_file (part_originalname p) u) = [part_originalname p].
Proof.
  intros Hreg Hdb Hg Hh Hp.
  apply register_AuthBody_stored in Hreg as (Hus & Hid & Hfiles & ->).
  pose proof (jwt_verify_sign (claims_of u) JWT_SECRET (clock env1)) as Hv.
  rewrite (post_upload_stored env2 r2 st1 _ _ p Hdb Hg Hh Hv Hp).
  eexists. cbn [fst snd users claims claims_of Claims.userId].
  split; [reflexivity|]. split; [reflexivity|]. split; [reflexivity|].
  split; [|cbn; by rewrite Hfiles].
  apply find_by_id_update. rewrite Hus. unfold find_by_id.
  rewrite find_app_None.
  - cbn. by rewrite bool_decide_eq_true_2.
  - apply find_none_all. intros v Hv'.
    apply bool_decide_eq_false. rewrite Hid.
    assert (Hb : ids_below (run calls initial_state)).
    { apply (run_invariant ids_below).
      - intros rt e q st. apply app_ids_below.
      - intros w Hw. by apply elem_of_nil in Hw. }
    specialize (Hb v Hv'). lia.
Qed.

(** **** Accounts over time *)

Lemma run_app calls1 calls2 st :
  run (calls1 ++ calls2) st = run calls2 (run calls1 st).
Proof.
  revert st. induction calls1 as [|c calls1 IH]; intros st; [done|].
  cbn. apply IH.
Qed.

Lemma find_unique_email (us : list User.t) k u :
  NoDup (User.email <$> us) -> us !! k = Some u ->
  List.find (has_email (User.email u)) us = Some u.
Proof.
  revert k. induction us as [|v us IH]; intros k Hnd Hk; [done|].
  cbn in Hnd. apply NoDup_cons in Hnd as [Hv Hnd].
  cbn. unfold has_email at 1. destruct k as [|k]; cbn in Hk.
  - injection Hk as ->. by rewrite bool_decide_eq_true_2.
  - rewrite bool_decide_eq_false_2; [by apply (IH k)|].
    intros He. apply Hv. rewrite He. apply list_elem_of_fmap.
    exists u. split; [done|]. by apply list_elem_of_lookup_2 in Hk.
Qed.

(** X15. Who has registered can log in later.  Take a user stored in a
    state the server has reached, and a password [bcrypt.compare]
    accepts against the stored hash: after any further requests, [/login]
    with that email and password answers 200 with the same account and
    a token signed for it. *)
Theorem login_after_any_requests calls1 calls2 env (r : Request) k u :
  users (run calls1 initial_state) !! k = Some u ->
  User.email u = body_email (body r) ->
  bcrypt_compare (body_password (body r)) (User.password u) = true ->
  db_fault env 0 = false ->
  exists u',
    login env r (run calls2 (run calls1 initial_state))
      = (run calls2 (run calls1 initial_state),
         Respond 200 (AuthBody "User logged in successfully!" u'
                        (jwt_sign (claims_of u') JWT_SECRET (clock env)))) /\
    same_account u u'.
Proof.
  intros Hk He Hc Hdb.
  destruct (run_account calls2 _ k u Hk)
    as (u' & Hk' & (H1 & H2 & H3 & H4 & H5) & _).
  exists u'. split; [|done].
  assert (Hnd : NoDup (User.email <$>
                         users (run calls2 (run calls1 initial_state)))).
  { rewrite <- run_app.
    apply (run_invariant (fun st => NoDup (User.email <$> users st))).
    - intros rt e q st. apply app_emails_unique.
    - cbn. apply NoDup_nil_2. }
  pose proof (find_unique_email _ k u' Hnd Hk') as Hf.
  rewrite H3, He in Hf.
  unfold_handlers. by rewrite Hdb, Hf, H4, Hc.
Qed.

(** X16. An email, once taken, stays taken: after any further requests
    [/register] with the email of a stored user answers [DuplicateUser]
    and writes nothing. *)
Theorem email_stays_taken calls env (r : Request) st k u :
  users st !! k = Some u ->
  User.email u = body_email (body r) ->
  db_fault env 0 = false ->
  register env r (run calls st) = (run calls st, DuplicateUser).
Proof.
  intros Hk He Hdb.
  destruct (run_account calls st k u Hk) as (u' & Hk' & (_ & _ & H3 & _) & _).
  apply (register_existing env r _ u'); [done| |by rewrite H3].
  by apply list_elem_of_lookup_2 in Hk'.
Qed.

End Server.

(** ** The reference instance meets the contracts *)

Lemma toy_dec_nat_enc_nat n rest :
  Toy.dec_nat (Toy.enc_nat n rest) = Some (n, rest).
Proof.
  induction n as [|n IH]; [reflexivity|].
  cbn. by rewrite IH.
Qed.

Lemma toy_split_at_app s rest :
  Toy.split_at (String.length s) (s ++ rest)%string = Some (s, rest).
Proof.
  induction s as [|c s IH]; [reflexivity|].
  change (String c s +:+ rest) with (String c (s +:+ rest)).
  cbn. by rewrite IH.
Qed.

Lemma toy_dec_str_enc_str s rest :
  Toy.dec_str (Toy.enc_str s rest) = Some (s, rest).
Proof.
  unfold Toy.dec_str, Toy.enc_str.
  rewrite toy_dec_nat_enc_nat. apply toy_split_at_app.
Qed.

Lemma toy_jwt_verify_sign c key t :
  Toy.jwt_verify (Toy.jwt_sign c key t) key = Some (mkDecoded c t).
Proof.
  unfold Toy.jwt_verify, Toy.jwt_sign.
  rewrite toy_dec_str_enc_str. cbn.
  rewrite bool_decide_eq_true_2 by done.
  rewrite toy_dec_nat_enc_nat. cbn.
  repeat (rewrite toy_dec_str_enc_str; cbn).
  rewrite toy_dec_nat_enc_nat. cbn. by destruct c.
Qed.

Lemma toy_jwt_verify_empty key : Toy.jwt_verify "" key = None.
Proof. reflexivity. Qed.

Lemma toy_bcrypt_compare_hash p rounds s :
  Toy.bcrypt_compare p (Toy.bcrypt_hash p rounds s) = true.
Proof.
  unfold Toy.bcrypt_compare, Toy.bcrypt_hash.
  rewrite toy_dec_nat_enc_nat, toy_dec_str_enc_str.
  by apply bool_decide_eq_true.
Qed.

(** ** The handlers on concrete requests *)

Lemma register_duplicate_user_witness :
  register Toy.bcrypt_hash Toy.jwt_sign Toy.JWT_SECRET Toy.env1
           Toy.register_alice Toy.registered
    = (Toy.registered, DuplicateUser) /\
  count_email "alice@x.com"
    (register Toy.bcrypt_hash Toy.jwt_sign Toy.JWT_SECRET Toy.env0
              Toy.register_alice initial_state).1 = 1.
Proof.
  destruct (register_duplicate_user Toy.bcrypt_hash Toy.jwt_sign
              Toy.JWT_SECRET) as [H1 H2].
  split.
  - apply (H1 Toy.env1 Toy.register_alice Toy.registered Toy.alice).
    + reflexivity.
    + left.
    + reflexivity.
  - apply (H2 Toy.env0 Toy.env1 Toy.register_alice Toy.register_alice
              initial_state).
    + intros k. reflexivity.
    + intros k. reflexivity.
    + reflexivity.
    + vm_compute. lia.
Defined.

Lemma upload_creates_one_file_witness :
  exists f,
    (post_upload Toy.jwt_verify Toy.JWT_SECRET Toy.env0
                 (Toy.upload_notes "hello") Toy.registered).2
      = Respond 201 (UploadBody "File saved in database" f) /\
    File.owner f = User._id Toy.alice.
Proof.
  destruct (upload_creates_one_file Toy.jwt_verify Toy.JWT_SECRET
              toy_jwt_verify_empty Toy.env0 (Toy.upload_notes "hello")
              Toy.registered Toy.alice_token
              (mkDecoded Toy.alice_claims 1000) (Toy.notes "hello") Toy.alice)
    as (f & g & Hr & _ & Ho & _).
  - intros k. reflexivity.
  - reflexivity.
  - apply lookup_singleton_eq.
  - apply toy_jwt_verify_sign.
  - reflexivity.
  - reflexivity.
  - exists f. split; [exact Hr|exact Ho].
Defined.

Lemma validateToken_outcomes_witness :
  validateToken Toy.jwt_verify Toy.JWT_SECRET (incoming Toy.register_alice)
    = inl Unauthorized /\
  validateToken Toy.jwt_verify Toy.JWT_SECRET
                (incoming Toy.upload_empty_header)
    = inl Unauthorized /\
  validateToken Toy.jwt_verify Toy.JWT_SECRET (incoming Toy.upload_garbage)
    = inl InvalidToken /\
  validateToken Toy.jwt_verify Toy.JWT_SECRET (incoming Toy.upload_nothing)
    = inr (set_user (incoming Toy.upload_nothing)
                    (mkDecoded Toy.alice_claims 1000)).
Proof.
  pose proof (validateToken_outcomes Toy.jwt_verify Toy.JWT_SECRET
                toy_jwt_verify_empty) as H.
  split; [|split; [|split]].
  - destruct (H (incoming Toy.register_alice)) as (Ha & _).
    apply Ha. apply lookup_empty.
  - destruct (H (incoming Toy.upload_empty_header)) as (_ & Hb & _).
    apply Hb. apply lookup_singleton_eq.
  - destruct (H (incoming Toy.upload_garbage)) as (_ & _ & Hc & _).
    apply (Hc "garbage").
    + apply lookup_singleton_eq.
    + discriminate.
    + reflexivity.
  - destruct (H (incoming Toy.upload_nothing)) as (_ & _ & _ & Hd & _).
    apply (Hd Toy.alice_token).
    + apply lookup_singleton_eq.
    + apply toy_jwt_verify_sign.
Defined.

Lemma login_outcomes_witness :
  login Toy.bcrypt_compare Toy.jwt_sign Toy.JWT_SECRET Toy.env0
        Toy.login_alice initial_state = (initial_state, UserNotFound) /\
  login Toy.bcrypt_compare Toy.jwt_sign Toy.JWT_SECRET Toy.env0
        Toy.login_alice_wrong Toy.registered
    = (Toy.registered, InvalidCredentials) /\
  login Toy.bcrypt_compare Toy.jwt_sign Toy.JWT_SECRET Toy.env_db_down
        Toy.login_alice Toy.registered = (Toy.registered, ServerError) /\
  login Toy.bcrypt_compare Toy.jwt_sign Toy.JWT_SECRET Toy.env1
        Toy.login_alice Toy.registered
    = (Toy.registered,
       Respond 200 (AuthBody "User logged in successfully!" Toy.alice
                      (Toy.jwt_sign Toy.alice_claims Toy.JWT_SECRET 2000))).
Proof.
  pose proof (login_outcomes Toy.bcrypt_compare Toy.jwt_sign Toy.JWT_SECRET)
    as H.
  split; [|split; [|split]].
  - destruct (H Toy.env0 Toy.login_alice initial_state) as (Ha & _).
    apply Ha.
    + reflexivity.
    + intros u Hu. by apply elem_of_nil in Hu.
  - destruct (H Toy.env0 Toy.login_alice_wrong Toy.registered)
      as (_ & Hb & _).
    apply (Hb Toy.alice); reflexivity.
  - destruct (H Toy.env_db_down Toy.login_alice Toy.registered)
      as (_ & _ & Hc & _).
    apply Hc. reflexivity.
  - destruct (H Toy.env1 Toy.login_alice Toy.registered)
      as (_ & _ & _ & Hd).
    apply (Hd Toy.alice); reflexivity.
Defined.

Lemma upload_without_payload_witness :
  post_upload Toy.jwt_verify Toy.JWT_SECRET Toy.env0 Toy.upload_nothing
              Toy.registered = (Toy.registered, NoFilePresent).
Proof.
  apply (upload_without_payload Toy.jwt_verify Toy.JWT_SECRET
           toy_jwt_verify_empty Toy.env0 Toy.upload_nothing Toy.registered
           Toy.alice_token (mkDecoded Toy.alice_claims 1000)).
  - apply lookup_singleton_eq.
  - apply toy_jwt_verify_sign.
  - reflexivity.
Defined.

(** Two uploads of Alice's, both of a file the client calls [notes.txt]:
    the two blobs are stored under the same filename, the original name,
    and the two [File] documents carry it as well. *)
Lemma upload_same_name_same_storage_filename :
  let st1 := (post_upload Toy.jwt_verify Toy.JWT_SECRET Toy.env0
                          (Toy.upload_notes "first") Toy.registered).1 in
  let st2 := (post_upload Toy.jwt_verify Toy.JWT_SECRET Toy.env1
                          (Toy.upload_notes "second") st1).1 in
  g_filename <$> gridfs st2 = ["notes.txt"; "notes.txt"] /\
  g_data <$> gridfs st2 = ["first"; "second"] /\
  File.filename <$> files st2 = ["notes.txt"; "notes.txt"] /\
  ~ NoDup (g_filename <$> gridfs st2).
Proof.
  cbn zeta.
  assert (E : g_filename <$> gridfs
            (post_upload Toy.jwt_verify Toy.JWT_SECRET Toy.env1
               (Toy.upload_notes "second")
               (post_upload Toy.jwt_verify Toy.JWT_SECRET Toy.env0
                  (Toy.upload_notes "first") Toy.registered).1).1
          = ["notes.txt"; "notes.txt"]) by (vm_compute; reflexivity).
  split; [exact E|]. split; [vm_compute; reflexivity|].
  split; [vm_compute; reflexivity|].
  rewrite E. intros Hnd. apply NoDup_cons in Hnd as [Hn _].
  apply Hn. left.
Qed.

Lemma upload_storage_filename_witness :
  (exists g,
      gridfs (post_upload Toy.jwt_verify Toy.JWT_SECRET Toy.env0
                          (Toy.upload_notes "hello") Toy.registered).1
        = [g] /\ g_filename g = "notes.txt") /\
  (exists g1 g2,
      gridfs (post_upload Toy.jwt_verify Toy.JWT_SECRET Toy.env1
                (Toy.upload_notes "second")
                (post_upload Toy.jwt_verify Toy.JWT_SECRET Toy.env0
                   (Toy.upload_notes "first") Toy.registered).1).1
        = [g1; g2] /\
      g_filename g1 = g_filename g2 /\ g_id g1 <> g_id g2).
Proof.
  destruct (upload_storage_filename Toy.jwt_verify Toy.JWT_SECRET
              toy_jwt_verify_empty) as (_ & H2 & H3).
  split.
  - destruct (H2 Toy.env0 (Toy.upload_notes "hello") Toy.registered
                Toy.alice_token (mkDecoded Toy.alice_claims 1000)
                (Toy.notes "hello")) as (g & Hg & Hn & _).
    + reflexivity.
    + apply lookup_singleton_eq.
    + apply toy_jwt_verify_sign.
    + reflexivity.
    + exists g. split; [exact Hg|exact Hn].
  - apply (H3 Toy.env0 Toy.env1 (Toy.upload_notes "first")
              (Toy.upload_notes "second") Toy.registered
              Toy.alice_token Toy.alice_token
              (mkDecoded Toy.alice_claims 1000)
              (mkDecoded Toy.alice_claims 1000)
              (Toy.notes "first") (Toy.notes "second")).
    + reflexivity.
    + reflexivity.
    + apply lookup_singleton_eq.
    + apply toy_jwt_verify_sign.
    + apply lookup_singleton_eq.
    + apply toy_jwt_verify_sign.
    + reflexivity.
    + reflexivity.
    + reflexivity.
Defined.

(** Deleting an id that no collection knows: the answer is the success
    message, not [NotFound]. *)
Lemma delete_missing_file_succeeds :
  gridfs initial_state = [] /\
  files initial_state = [] /\
  delete_file Toy.env0 Toy.delete_7 initial_state = (initial_state, Deleted) /\
  (delete_file Toy.env0 Toy.delete_7 initial_state).2 <> NotFound.
Proof.
  split; [reflexivity|]. split; [reflexivity|].
  split; [reflexivity|]. discriminate.
Qed.

Lemma delete_file_outcomes_witness :
  delete_file Toy.env_gridfs_down Toy.delete_7 Toy.registered
    = (Toy.registered, StorageError) /\
  (delete_file Toy.env0 Toy.delete_7 Toy.registered).2 = Deleted.
Proof.
  split.
  - destruct (delete_file_outcomes Toy.env_gridfs_down Toy.delete_7
                Toy.registered) as (_ & _ & H & _).
    apply H. reflexivity.
  - destruct (delete_file_outcomes Toy.env0 Toy.delete_7 Toy.registered)
      as (_ & _ & _ & H & _).
    apply H. reflexivity.
Defined.

Lemma register_then_login_witness :
  exists T1 T2 d1 d2,
    register Toy.bcrypt_hash Toy.jwt_sign Toy.JWT_SECRET Toy.env0
             Toy.register_alice initial_state
      = (Toy.registered,
         Respond 201 (AuthBody "User registered successfully!!" Toy.alice T1)) /\
    login Toy.bcrypt_compare Toy.jwt_sign Toy.JWT_SECRET Toy.env1
          Toy.login_alice Toy.registered
      = (Toy.registered,
         Respond 200 (AuthBody "User logged in successfully!" Toy.alice T2)) /\
    Toy.jwt_verify T1 Toy.JWT_SECRET = Some d1 /\
    Toy.jwt_verify T2 Toy.JWT_SECRET = Some d2 /\
    claims d1 = claims d2 /\ T1 <> T2.
Proof.
  destruct (register_then_login Toy.bcrypt_hash Toy.bcrypt_compare
              Toy.jwt_sign Toy.jwt_verify Toy.JWT_SECRET
              toy_bcrypt_compare_hash toy_jwt_verify_sign) as [H _].
  destruct (H Toy.env0 Toy.env1 Toy.register_alice Toy.login_alice
              initial_state)
    as (st1 & u & T1 & T2 & d1 & d2 & Hr & Hl & Hv1 & Hv2 & Hc1 & Hc2).
  - intros k. reflexivity.
  - intros k. reflexivity.
  - intros v Hv. by apply elem_of_nil in Hv.
  - reflexivity.
  - reflexivity.
  - assert (Hreg : register Toy.bcrypt_hash Toy.jwt_sign Toy.JWT_SECRET
                     Toy.env0 Toy.register_alice initial_state
                   = (Toy.registered,
                      Respond 201 (AuthBody "User registered successfully!!"
                                     Toy.alice Toy.alice_token)))
      by reflexivity.
    rewrite Hreg in Hr. injection Hr as <- <- <-.
    assert (Hlog : login Toy.bcrypt_compare Toy.jwt_sign Toy.JWT_SECRET
                     Toy.env1 Toy.login_alice Toy.registered
                   = (Toy.registered,
                      Respond 200 (AuthBody "User logged in successfully!"
                                     Toy.alice
                                     (Toy.jwt_sign Toy.alice_claims
                                        Toy.JWT_SECRET 2000))))
      by reflexivity.
    rewrite Hlog in Hl. injection Hl as <-.
    exists Toy.alice_token,
      (Toy.jwt_sign Toy.alice_claims Toy.JWT_SECRET 2000), d1, d2.
    split; [exact Hreg|]. split; [exact Hlog|].
    split; [exact Hv1|]. split; [exact Hv2|].
    split; [by rewrite Hc1, Hc2|].
    vm_compute. discriminate.
Defined.

Lemma auth_response_carries_password_hash_witness :
  (exists st' u tok,
      register Toy.bcrypt_hash Toy.jwt_sign Toy.JWT_SECRET Toy.env0
               Toy.register_alice initial_state
        = (st', Respond 201 (AuthBody "User registered successfully!!" u tok)) /\
      users st' = [u] /\
      User.password u = Toy.bcrypt_hash "pw1" 10 "salt") /\
  (exists u tok,
      login Toy.bcrypt_compare Toy.jwt_sign Toy.JWT_SECRET Toy.env1
            Toy.login_alice Toy.registered
        = (Toy.registered,
           Respond 200 (AuthBody "User logged in successfully!" u tok)) /\
      u ∈ users Toy.registered /\
      Toy.bcrypt_compare "pw1" (User.password u) = true).
Proof.
  destruct (auth_response_carries_password_hash Toy.bcrypt_hash
              Toy.bcrypt_compare Toy.jwt_sign Toy.JWT_SECRET)
    as (Hreg & Hlog & Hreg_ok & Hlog_ok).
  split.
  - destruct (Hreg_ok Toy.env0 Toy.register_alice initial_state)
      as (st' & b & Hr).
    + intros k. reflexivity.
    + intros u Hu. by apply elem_of_nil in Hu.
    + destruct (Hreg _ _ _ _ _ Hr) as (u & tok & -> & Hus & Hp & _).
      exists st', u, tok. split; [exact Hr|]. split; [exact Hus|exact Hp].
  - destruct (Hlog_ok Toy.env1 Toy.login_alice Toy.registered Toy.alice)
      as (b & Hl).
    + reflexivity.
    + reflexivity.
    + reflexivity.
    + destruct (Hlog _ _ _ _ _ Hl) as (u & tok & -> & _ & _ & Hin & Hc & _).
      exists u, tok. split; [exact Hl|]. split; [exact Hin|exact Hc].
Defined.

Lemma owner_existence_invariant_witness :
  owner_exists
    (app Toy.bcrypt_hash Toy.bcrypt_compare Toy.jwt_sign Toy.jwt_verify
         Toy.JWT_SECRET POST_upload Toy.env1 (Toy.upload_notes "hello")
         (app Toy.bcrypt_hash Toy.bcrypt_compare Toy.jwt_sign Toy.jwt_verify
              Toy.JWT_SECRET POST_register Toy.env0 Toy.register_alice
              initial_state).1).1.
Proof.
  eapply (owner_existence_invariant Toy.bcrypt_hash Toy.bcrypt_compare
            Toy.jwt_sign Toy.jwt_verify Toy.JWT_SECRET toy_jwt_verify_sign).
  apply reachable_step.
  - apply reachable_step.
    + apply reachable_init.
    + intros tok d Hh. unfold Toy.register_alice in Hh.
      cbn [headers] in Hh. by rewrite lookup_empty in Hh.
  - intros tok d Hh _. unfold Toy.upload_notes in Hh.
    cbn [headers] in Hh.
    rewrite lookup_singleton_eq in Hh. injection Hh as <-.
    apply elem_of_app. right. left.
Defined.

(** ** The further properties on concrete requests *)

Lemma get_file_outcomes_witness :
  In (mkGridFile "files" 7 "a.txt" "text/plain" 1 "a")
     (gridfs Toy.two_buckets) /\
  (get_file Toy.env_gridfs_down Toy.get_7 Toy.two_buckets).2
    = RetrievalError /\
  (get_file Toy.env0 Toy.get_7 Toy.two_buckets).2 = NotFound.
Proof.
  split; [left; reflexivity|]. split.
  - destruct (get_file_outcomes Toy.env_gridfs_down Toy.get_7 Toy.two_buckets)
      as (_ & H & _).
    apply H. reflexivity.
  - destruct (get_file_outcomes Toy.env0 Toy.get_7 Toy.two_buckets)
      as (_ & _ & H & _).
    apply H. reflexivity.
Defined.

Lemma delete_file_idempotent_witness :
  (delete_file Toy.env_gridfs_down Toy.delete_7
     (delete_file Toy.env0 Toy.delete_7 Toy.two_buckets).1).1
    = (delete_file Toy.env0 Toy.delete_7 Toy.two_buckets).1.
Proof.
  apply (delete_file_idempotent Toy.env0 Toy.env_gridfs_down Toy.delete_7
           Toy.two_buckets).
  reflexivity.
Defined.

Lemma upload_requires_verified_token_witness :
  post_upload Toy.jwt_verify Toy.JWT_SECRET Toy.env0 Toy.upload_garbage
              Toy.registered = (Toy.registered, Unauthorized) \/
  post_upload Toy.jwt_verify Toy.JWT_SECRET Toy.env0 Toy.upload_garbage
              Toy.registered = (Toy.registered, InvalidToken).
Proof.
  apply (upload_requires_verified_token Toy.jwt_verify Toy.JWT_SECRET
           Toy.env0 Toy.upload_garbage Toy.registered).
  intros tok d Hh Hv. unfold Toy.upload_garbage in Hh. cbn [headers] in Hh.
  rewrite lookup_singleton_eq in Hh. injection Hh as <-.
  vm_compute in Hv. discriminate.
Defined.

Lemma upload_metadata_failure_orphans_blob_witness :
  (post_upload Toy.jwt_verify Toy.JWT_SECRET Toy.env_first_down
               (Toy.upload_notes "hello") Toy.registered).2
    = Unhandled "MongoError" /\
  gridfs (post_upload Toy.jwt_verify Toy.JWT_SECRET Toy.env_first_down
                      (Toy.upload_notes "hello") Toy.registered).1
    = gridfs Toy.registered ++ [stored_blob Toy.registered (Toy.notes "hello")] /\
  files (post_upload Toy.jwt_verify Toy.JWT_SECRET Toy.env_first_down
                     (Toy.upload_notes "hello") Toy.registered).1
    = files Toy.registered /\
  users (post_upload Toy.jwt_verify Toy.JWT_SECRET Toy.env_first_down
                     (Toy.upload_notes "hello") Toy.registered).1
    = users Toy.registered.
Proof.
  apply (upload_metadata_failure_orphans_blob Toy.jwt_verify Toy.JWT_SECRET
           toy_jwt_verify_empty Toy.env_first_down (Toy.upload_notes "hello")
           Toy.registered Toy.alice_token (mkDecoded Toy.alice_claims 1000)).
  - reflexivity.
  - reflexivity.
  - apply lookup_singleton_eq.
  - apply toy_jwt_verify_sign.
  - reflexivity.
Defined.

Lemma upload_owner_list_failure_witness :
  (post_upload Toy.jwt_verify Toy.JWT_SECRET Toy.env_second_down
               (Toy.upload_notes "hello") Toy.registered).2
    = Unhandled "MongoError" /\
  length (files (post_upload Toy.jwt_verify Toy.JWT_SECRET
                   Toy.env_second_down (Toy.upload_notes "hello")
                   Toy.registered).1) = 1 /\
  users (post_upload Toy.jwt_verify Toy.JWT_SECRET Toy.env_second_down
                     (Toy.upload_notes "hello") Toy.registered).1
    = [Toy.alice].
Proof.
  destruct (upload_owner_list_failure Toy.jwt_verify Toy.JWT_SECRET
              toy_jwt_verify_empty Toy.env_second_down
              (Toy.upload_notes "hello") Toy.registered Toy.alice_token
              (mkDecoded Toy.alice_claims 1000) (Toy.notes "hello"))
    as (Hr & Hf & _ & Hu).
  - reflexivity.
  - reflexivity.
  - reflexivity.
  - apply lookup_singleton_eq.
  - apply toy_jwt_verify_sign.
  - reflexivity.
  - split; [exact Hr|]. split; [by rewrite Hf|exact Hu].
Defined.

Lemma upload_unknown_owner_witness :
  exists f,
    (post_upload Toy.jwt_verify Toy.JWT_SECRET Toy.env0 Toy.upload_ghost
                 Toy.registered).2
      = Respond 201 (UploadBody "File saved in database" f) /\
    File.owner f = 42 /\
    users (post_upload Toy.jwt_verify Toy.JWT_SECRET Toy.env0
                       Toy.upload_ghost Toy.registered).1 = [Toy.alice].
Proof.
  destruct (upload_unknown_owner Toy.jwt_verify Toy.JWT_SECRET
              toy_jwt_verify_empty Toy.env0 Toy.upload_ghost Toy.registered
              Toy.ghost_token (mkDecoded Toy.ghost_claims 500)
              (Toy.notes "boo"))
    as (Hr & _ & Ho & Hu).
  - intros k. reflexivity.
  - reflexivity.
  - apply lookup_singleton_eq.
  - apply toy_jwt_verify_sign.
  - reflexivity.
  - reflexivity.
  - eexists. split; [exact Hr|]. split; [exact Ho|exact Hu].
Defined.

Lemma register_database_failure_witness :
  register Toy.bcrypt_hash Toy.jwt_sign Toy.JWT_SECRET Toy.env_db_down
           Toy.register_alice initial_state
    = (initial_state, Unhandled "MongoError") /\
  (register Toy.bcrypt_hash Toy.jwt_sign Toy.JWT_SECRET Toy.env_second_down
            Toy.register_alice initial_state).2 = Unhandled "MongoError" /\
  users (register Toy.bcrypt_hash Toy.jwt_sign Toy.JWT_SECRET
                  Toy.env_second_down Toy.register_alice initial_state).1
    = [].
Proof.
  split.
  - destruct (register_database_failure Toy.bcrypt_hash Toy.jwt_sign
                Toy.JWT_SECRET Toy.env_db_down Toy.register_alice
                initial_state) as [H _].
    apply H. reflexivity.
  - destruct (register_database_failure Toy.bcrypt_hash Toy.jwt_sign
                Toy.JWT_SECRET Toy.env_second_down Toy.register_alice
                initial_state) as [_ H].
    destruct H as (Hr & Hu & _).
    + reflexivity.
    + reflexivity.
    + intros u Hu. by apply elem_of_nil in Hu.
    + split; [exact Hr|exact Hu].
Defined.

Lemma accounts_never_change_witness :
  exists u',
    users (run Toy.bcrypt_hash Toy.bcrypt_compare Toy.jwt_sign Toy.jwt_verify
               Toy.JWT_SECRET
               [mkCall POST_upload Toy.env0 (Toy.upload_notes "hello");
                mkCall DELETE_files_id Toy.env0 Toy.delete_7]
               Toy.registered) !! 0 = Some u' /\
    same_account Toy.alice u' /\
    User.files Toy.alice `prefix_of` User.files u'.
Proof.
  apply (accounts_never_change Toy.bcrypt_hash Toy.bcrypt_compare
           Toy.jwt_sign Toy.jwt_verify Toy.JWT_SECRET).
  reflexivity.
Defined.

Lemma uploads_never_retrievable_witness :
  get_file Toy.env1 Toy.get_7
    (run Toy.bcrypt_hash Toy.bcrypt_compare Toy.jwt_sign Toy.jwt_verify
         Toy.JWT_SECRET
         [mkCall POST_register Toy.env0 Toy.register_alice;
          mkCall POST_upload Toy.env1 (Toy.upload_notes "hello")]
         initial_state)
  = (run Toy.bcrypt_hash Toy.bcrypt_compare Toy.jwt_sign Toy.jwt_verify
         Toy.JWT_SECRET
         [mkCall POST_register Toy.env0 Toy.register_alice;
          mkCall POST_upload Toy.env1 (Toy.upload_notes "hello")]
         initial_state,
     NotFound).
Proof.
  destruct (uploads_never_retrievable Toy.bcrypt_hash Toy.bcrypt_compare
              Toy.jwt_sign Toy.jwt_verify Toy.JWT_SECRET
              [mkCall POST_register Toy.env0 Toy.register_alice;
               mkCall POST_upload Toy.env1 (Toy.upload_notes "hello")]
              Toy.env1 Toy.get_7) as (_ & _ & H & _).
  apply H. reflexivity.
Defined.

Lemma register_token_authorises_upload_witness :
  exists f,
    (post_upload Toy.jwt_verify Toy.JWT_SECRET Toy.env1
                 (Toy.upload_notes "hello") Toy.registered).2
      = Respond 201 (UploadBody "File saved in database" f) /\
    File.owner f = User._id Toy.alice /\
    find_by_id (User._id Toy.alice)
      (users (post_upload Toy.jwt_verify Toy.JWT_SECRET Toy.env1
                          (Toy.upload_notes "hello") Toy.registered).1)
      = Some (push_file "notes.txt" Toy.alice).
Proof.
  destruct (register_token_authorises_upload Toy.bcrypt_hash
              Toy.bcrypt_compare Toy.jwt_sign Toy.jwt_verify Toy.JWT_SECRET
              toy_jwt_verify_sign toy_jwt_verify_empty
              [] Toy.env0 Toy.env1 Toy.register_alice
              (Toy.upload_notes "hello") Toy.registered 201
              "User registered successfully!!" Toy.alice Toy.alice_token
              (Toy.notes "hello"))
    as (f & Hr & Ho & _ & Hf & _).
  - reflexivity.
  - intros k. reflexivity.
  - reflexivity.
  - apply lookup_singleton_eq.
  - reflexivity.
  - exists f. split; [exact Hr|]. split; [exact Ho|exact Hf].
Defined.

Lemma login_after_any_requests_witness :
  exists u',
    login Toy.bcrypt_compare Toy.jwt_sign Toy.JWT_SECRET Toy.env1
          Toy.login_alice
          (run Toy.bcrypt_hash Toy.bcrypt_compare Toy.jwt_sign Toy.jwt_verify
               Toy.JWT_SECRET
               [mkCall POST_upload Toy.env0 (Toy.upload_notes "hello")]
               (run Toy.bcrypt_hash Toy.bcrypt_compare Toy.jwt_sign
                    Toy.jwt_verify Toy.JWT_SECRET
                    [mkCall POST_register Toy.env0 Toy.register_alice]
                    initial_state))
      = (run Toy.bcrypt_hash Toy.bcrypt_compare Toy.jwt_sign Toy.jwt_verify
             Toy.JWT_SECRET
             [mkCall POST_upload Toy.env0 (Toy.upload_notes "hello")]
             (run Toy.bcrypt_hash Toy.bcrypt_compare Toy.jwt_sign
                  Toy.jwt_verify Toy.JWT_SECRET
                  [mkCall POST_register Toy.env0 Toy.register_alice]
                  initial_state),
         Respond 200 (AuthBody "User logged in successfully!" u'
                        (Toy.jwt_sign (claims_of u') Toy.JWT_SECRET 2000))) /\
    same_account Toy.alice u'.
Proof.
  apply (login_after_any_requests Toy.bcrypt_hash Toy.bcrypt_compare
           Toy.jwt_sign Toy.jwt_verify Toy.JWT_SECRET
           [mkCall POST_register Toy.env0 Toy.register_alice]
           [mkCall POST_upload Toy.env0 (Toy.upload_notes "hello")]
           Toy.env1 Toy.login_alice 0 Toy.alice).
  - reflexivity.
  - reflexivity.
  - reflexivity.
  - reflexivity.
Defined.

Lemma email_stays_taken_witness :
  register Toy.bcrypt_hash Toy.jwt_sign Toy.JWT_SECRET Toy.env1
           Toy.register_alice
           (run Toy.bcrypt_hash Toy.bcrypt_compare Toy.jwt_sign Toy.jwt_verify
                Toy.JWT_SECRET
                [mkCall POST_upload Toy.env0 (Toy.upload_notes "hello")]
                Toy.registered)
  = (run Toy.bcrypt_hash Toy.bcrypt_compare Toy.jwt_sign Toy.jwt_verify
         Toy.JWT_SECRET
         [mkCall POST_upload Toy.env0 (Toy.upload_notes "hello")]
         Toy.registered,
     DuplicateUser).
Proof.
  apply (email_stays_taken Toy.bcrypt_hash Toy.bcrypt_compare Toy.jwt_sign
           Toy.jwt_verify Toy.JWT_SECRET
           [mkCall POST_upload Toy.env0 (Toy.upload_notes "hello")]
           Toy.env1 Toy.register_alice Toy.registered 0 Toy.alice).
  - reflexivity.
  - reflexivity.
  - reflexivity.
Defined.
